(** * deker.tools.array: size arithmetic, allocation guard, identity generator

    A shallow embedding of [src/deker/tools/array.py] and the properties of
    its five functions.

    Conventions of the embedding.
    - A Python [int] is a [Z]; [bool] is read as the [int] it is (0 or 1).
    - A Python [str] is a [string] whose characters are the code points
      U+0000..U+00FF.
    - A call either returns a value or raises: [result A].  Exceptions carry
      their message.
    - NumPy is modelled on a platform whose default integer is 64 bits wide
      (Linux and macOS; every platform from NumPy 2 on).
    - The interpreter's limit on the length of integer/string conversions is
      taken as switched off. *)

From Stdlib Require Import ZArith List String Ascii Bool Lia.
From Stdlib Require Import DecimalString.
From Stdlib Require DecimalZ.
From Stdlib Require Import Permutation.
Import ListNotations.

#[local] Open Scope string_scope.
#[local] Open Scope Z_scope.

(** ** Exceptions and results *)

Inductive exn : Type :=
| DekerValidationError (msg : string)
| DekerMemoryError (msg : string)
| TypeError (msg : string)
| IndexError (msg : string)
| KeyError (msg : string)
| ValueError (msg : string)
| OverflowError (msg : string)
| RuntimeError (msg : string).

Inductive result (A : Type) : Type :=
| Return (a : A)
| Raise (e : exn).

Arguments Return {A} a.
Arguments Raise {A} e.

Definition bind {A B : Type} (c : result A) (k : A -> result B) : result B :=
  match c with
  | Return a => k a
  | Raise e => Raise e
  end.

Notation "x <- c ;; k" := (bind c (fun x => k))
  (at level 61, c at next level, right associativity).

(** [try: c except ValueError: h] *)
Definition is_ValueError (e : exn) : bool :=
  match e with ValueError _ => true | _ => false end.

Definition try_except {A : Type} (catches : exn -> bool)
    (c : result A) (h : result A) : result A :=
  match c with
  | Return a => Return a
  | Raise e => if catches e then h else Raise e
  end.

(** Every class above derives from [Exception]. *)
Definition is_Exception (e : exn) : bool := true.

(** ** NumPy: array creation from Python integers, [prod], conversion back *)

Module Numpy.

Inductive dtype : Type := int64 | uint64 | float64 | object_.

(** The dtype NumPy discovers for one Python integer: the signed 64-bit type
    when the value fits, else the unsigned one, else a Python object. *)
Definition discover (x : Z) : dtype :=
  if (- 2 ^ 63 <=? x) && (x <? 2 ^ 63) then int64
  else if (0 <=? x) && (x <? 2 ^ 64) then uint64
  else object_.

(** [numpy.promote_types] on the dtypes that occur here. *)
Definition promote (a b : dtype) : dtype :=
  match a, b with
  | object_, _ | _, object_ => object_
  | int64, int64 => int64
  | uint64, uint64 => uint64
  | _, _ => float64
  end.

(** The dtype of [np.array(seq)]; an empty sequence gets the default
    [float64]. *)
Definition array_dtype (seq : list Z) : dtype :=
  match seq with
  | [] => float64
  | x :: xs => fold_left (fun d y => promote d (discover y)) xs (discover x)
  end.

(** Signed and unsigned 64-bit wrap-around. *)
Definition wrap_int64 (z : Z) : Z := (z + 2 ^ 63) mod 2 ^ 64 - 2 ^ 63.
Definition wrap_uint64 (z : Z) : Z := z mod 2 ^ 64.

(** A binary64 value.  Every factor is an integer, so every finite value
    met here is an integer as well; the sign of a zero is not kept (it
    changes neither a later product nor the conversion to [int]). *)
Inductive double : Type :=
| Finite (z : Z)
| Inf (negative : bool)
| NaN.

(** Round a natural number to 53 significant bits, ties to even. *)
Definition round_nearest_even (m : Z) : Z :=
  if m <? 2 ^ 53 then m
  else
    let e := Z.log2 m - 52 in
    let q := Z.shiftr m e in
    let r := m mod 2 ^ e in
    let half := 2 ^ (e - 1) in
    let q' := if (half <? r) || ((r =? half) && Z.odd q) then q + 1 else q in
    Z.shiftl q' e.

Definition to_double (n : Z) : double :=
  let m := round_nearest_even (Z.abs n) in
  if 2 ^ 1024 <=? m then Inf (n <? 0) else Finite (Z.sgn n * m).

Definition fmul (a b : double) : double :=
  match a, b with
  | NaN, _ | _, NaN => NaN
  | Inf s, Inf t => Inf (xorb s t)
  | Inf s, Finite z | Finite z, Inf s =>
      if z =? 0 then NaN else Inf (xorb s (z <? 0))
  | Finite z, Finite w => to_double (z * w)
  end.

(** [np.array(seq)] *)
Inductive ndarray : Type :=
| Int64Array (data : list Z)
| UInt64Array (data : list Z)
| Float64Array (data : list double)
| ObjectArray (data : list Z).

Definition array (seq : list Z) : ndarray :=
  match array_dtype seq with
  | int64 => Int64Array seq
  | uint64 => UInt64Array seq
  | float64 => Float64Array (map to_double seq)
  | object_ => ObjectArray seq
  end.

(** The scalar [np.prod] returns: of the array's dtype. *)
Inductive scalar : Type :=
| Int64 (z : Z)
| UInt64 (z : Z)
| Float64 (d : double)
| Object (z : Z).

(** [np.prod(a)] is [multiply.reduce] from the identity 1, left to right,
    in the arithmetic of the dtype: modular for the integer types, IEEE for
    [float64], Python's own for objects. *)
Definition prod (a : ndarray) : scalar :=
  match a with
  | Int64Array l => Int64 (fold_left (fun acc x => wrap_int64 (acc * x)) l 1)
  | UInt64Array l => UInt64 (fold_left (fun acc x => wrap_uint64 (acc * x)) l 1)
  | Float64Array l => Float64 (fold_left fmul l (Finite 1))
  | ObjectArray l => Object (fold_left Z.mul l 1)
  end.

(** [int(x)] for a NumPy scalar [x]. *)
Definition to_int (x : scalar) : result Z :=
  match x with
  | Int64 z | UInt64 z | Object z => Return z
  | Float64 (Finite z) => Return z
  | Float64 (Inf _) =>
      Raise (OverflowError "cannot convert float infinity to integer")
  | Float64 NaN => Raise (ValueError "cannot convert float NaN to integer")
  end.

End Numpy.

(** ** Size arithmetic *)

(** [int(np.prod(np.array(seq)))] *)
Definition calculate_total_cells_in_array (seq : list Z) : result Z :=
  Numpy.to_int (Numpy.prod (Numpy.array seq)).

(** The mathematical product of the extents. *)
Definition product (seq : list Z) : Z := fold_right Z.mul 1 seq.

(** ** Python strings and the built-in functions used on them *)

Module Py.

Definition code (c : ascii) : Z := Z.of_nat (nat_of_ascii c).

(** White space as [int()] skips it: the ASCII blanks, and the two
    Unicode spaces below U+0100. *)
Definition isspace (c : ascii) : bool :=
  let n := code c in
  ((9 <=? n) && (n <=? 13)) || (n =? 32) || (n =? 133) || (n =? 160).

Definition digit_value (c : ascii) : option Z :=
  let n := code c in
  if (48 <=? n) && (n <=? 57) then Some (n - 48) else None.

Definition is_underscore (c : ascii) : bool := code c =? 95.

Fixpoint lstrip (s : string) : string :=
  match s with
  | String c s' => if isspace c then lstrip s' else s
  | EmptyString => EmptyString
  end.

(** The digits that follow a first digit, with single underscores allowed
    between two digits; the value read so far is [acc].  [None]: an
    underscore that no digit follows. *)
Fixpoint digits_tail (s : string) (acc : Z) : option (Z * string) :=
  match s with
  | EmptyString => Some (acc, s)
  | String c s' =>
      match digit_value c with
      | Some d => digits_tail s' (10 * acc + d)
      | None =>
          if is_underscore c then
            match s' with
            | EmptyString => None
            | String c2 s'' =>
                match digit_value c2 with
                | Some d => digits_tail s'' (10 * acc + d)
                | None => None
                end
            end
          else Some (acc, s)
      end
  end.

Definition split_sign (s : string) : bool * string :=
  match s with
  | String c r =>
      if code c =? 43 then (false, r)
      else if code c =? 45 then (true, r)
      else (false, s)
  | EmptyString => (false, s)
  end.

Definition invalid_literal : exn :=
  ValueError "invalid literal for int() with base 10".

(** [int(s)] in base 10: blanks, an optional sign, digits, blanks. *)
Definition int (s : string) : result Z :=
  let (negative, body) := split_sign (lstrip s) in
  match body with
  | EmptyString => Raise invalid_literal
  | String c r =>
      match digit_value c with
      | None => Raise invalid_literal
      | Some d =>
          match digits_tail r d with
          | None => Raise invalid_literal
          | Some (n, rest) =>
              match lstrip rest with
              | EmptyString => Return (if negative then - n else n)
              | String _ _ => Raise invalid_literal
              end
          end
      end
  end.

(** [str.lower] acts on each character on its own below U+0100. *)
Definition lower_char (c : ascii) : ascii :=
  let n := code c in
  if ((65 <=? n) && (n <=? 90))
     || ((192 <=? n) && (n <=? 222) && negb (n =? 215))
  then ascii_of_nat (nat_of_ascii c + 32)
  else c.

Fixpoint lower (s : string) : string :=
  match s with
  | EmptyString => EmptyString
  | String c s' => String (lower_char c) (lower s')
  end.

(** [s[-1]] *)
Fixpoint last (s : string) : result string :=
  match s with
  | EmptyString => Raise (IndexError "string index out of range")
  | String c EmptyString => Return (String c EmptyString)
  | String _ s' => last s'
  end.

(** [s[:-1]] *)
Fixpoint but_last (s : string) : string :=
  match s with
  | EmptyString => EmptyString
  | String c EmptyString => EmptyString
  | String c s' => String c (but_last s')
  end.

(** [d[key]] for a [Dict[str, int]] in insertion order. *)
Fixpoint getitem (d : list (string * Z)) (key : string) : result Z :=
  match d with
  | [] => Raise (KeyError key)
  | (k, v) :: d' => if String.eqb k key then Return v else getitem d' key
  end.

(** [str(n)] for an [int]. *)
Definition str_of_int (n : Z) : string := NilZero.string_of_int (Z.to_int n).

Definition dquote : string := String (ascii_of_nat 34) EmptyString.
Definition quoted (s : string) : string := dquote ++ s ++ dquote.

End Py.

(** ** Values that reach these functions *)

Module ArrayType.

(** Modelled from the spec: the enumeration [ArrayType] of
    [deker.types.private.enums], which [generate_uid] imports.  The entity
    kind is an enumeration with exactly two variants, named [array] and
    [varray] as the code names its members; the string label of each one
    ([.value]) is a parameter of the functions that use it. *)
Inductive t : Type := array | varray.

Definition eqb (a b : t) : bool :=
  match a, b with
  | array, array | varray, varray => true
  | _, _ => false
  end.
End ArrayType.

(** A class as [get_id] sees it: one of the two it registers, or another.
    [object], the base of every class, stays implicit. *)
Inductive class : Type :=
| Array
| VArray
| OtherClass (name : string).

(** How a class comes to stand in the resolution order [singledispatch]
    composes for a type: as a base, in the type's [__mro__], or as an
    abstract base class the type is registered with. *)
Inductive origin : Type := Inherited | Registered.

(** An instance of a class other than [int] and [str]: its class
    [type(o)]; the resolution order [functools._compose_mro] gives for that
    class and the registered ones, from the entry after the class itself to
    the entry before [object], or [None] where it raises for an inconsistent
    hierarchy; [str(type(o))] and [str(o)]. *)
Record instance : Type := {
  inst_class : class;
  inst_order : option (list (class * origin));
  inst_type : string;
  inst_str : string
}.

Inductive pyvalue : Type :=
| PyInt (n : Z)
| PyStr (s : string)
| PyInstance (o : instance).

(** [3.5] *)
Definition py_3_5 : pyvalue :=
  PyInstance {| inst_class := OtherClass "float";
                inst_order := Some [];
                inst_type := "<class 'float'>";
                inst_str := "3.5" |}.

(** [str(v)], as an f-string renders [v]. *)
Definition py_str (v : pyvalue) : string :=
  match v with
  | PyInt n => Py.str_of_int n
  | PyStr s => s
  | PyInstance o => inst_str o
  end.



Definition py_type (v : pyvalue) : string :=
  match v with
  | PyInt _ => "<class 'int'>"
  | PyStr _ => "<class 'str'>"
  | PyInstance o => inst_type o
  end.

(** [mapping] of [convert_human_memory_to_bytes]. *)
Definition bytes_ : Z := 1024.
Definition mapping : list (string * Z) :=
  [("k", bytes_); ("m", bytes_ ^ 2); ("g", bytes_ ^ 3)].

Definition accepted_formats : string :=
  "; expected `int` or `str` in format [number][unit] where unit is one of ["
  ++ Py.quoted "k" ++ ", " ++ Py.quoted "K" ++ ", " ++ Py.quoted "m" ++ ", "
  ++ Py.quoted "M" ++ ", " ++ Py.quoted "g" ++ ", " ++ Py.quoted "G"
  ++ "], e.g. " ++ Py.quoted "8G" ++ " or " ++ Py.quoted "512m".

Definition memory_limit_error (memory_limit : pyvalue) : string :=
  "invalid memory_limit value: " ++ py_str memory_limit ++ accepted_formats.

Definition convert_human_memory_to_bytes (memory_limit : pyvalue) : result Z :=
  let error := memory_limit_error memory_limit in
  match memory_limit with
  | PyInstance _ =>
      (* not isinstance(memory_limit, (int, str)) *)
      Raise (DekerValidationError error)
  | PyInt n =>
      (* isinstance(memory_limit, int) *)
      Return n
  | PyStr s =>
      try_except is_ValueError (Py.int s)
        (div <- Py.last (Py.lower s) ;;
         let limit := Py.but_last s in
         try_except is_Exception
           (int_limit <- Py.int limit ;;
            unit <- Py.getitem mapping div ;;
            Return (int_limit * unit))
           (Raise (DekerValidationError error)))
  end.

(** ** Allocation guard *)

(** A type NumPy resolves to a dtype: [np.dtype(dtype).itemsize] and
    [str(dtype)]. *)
Record element_type : Type := {
  itemsize : Z;
  dtype_str : string
}.

(** What [psutil] reports at the time of the call. *)
Record os_memory : Type := {
  virtual_memory_available : Z;
  swap_memory_free : Z
}.

(** [str(shape)] for a tuple. *)
Fixpoint join_ints (l : list Z) : string :=
  match l with
  | [] => EmptyString
  | [x] => Py.str_of_int x
  | x :: r => Py.str_of_int x ++ ", " ++ join_ints r
  end.

Definition str_of_tuple (shape : list Z) : string :=
  match shape with
  | [x] => "(" ++ Py.str_of_int x ++ ",)"
  | _ => "(" ++ join_ints shape ++ ")"
  end.

Section AllocationGuard.

(** [deker_tools.data.convert_size_to_human]: the byte-count formatter,
    consumed as a given utility.  It raises on a size it does not render,
    as it does with ValueError on a negative one. *)
Variable convert_size_to_human : Z -> result string.

Definition check_memory (os : os_memory) (shape : list Z)
    (dtype : element_type) (mem_limit_from_settings : Z) : result unit :=
  array_values <- calculate_total_cells_in_array shape ;;
  let array_size_bytes := itemsize dtype * array_values in
  array_size_human <- convert_size_to_human array_size_bytes ;;
  let current_limit := virtual_memory_available os + swap_memory_free os in
  let limit := Z.min mem_limit_from_settings current_limit in
  limit_human <- convert_size_to_human limit ;;
  if array_size_bytes >? limit then
    Raise (DekerMemoryError
      ("Can not allocate " ++ array_size_human
       ++ " for array/subset with shape " ++ str_of_tuple shape
       ++ " and dtype " ++ dtype_str dtype
       ++ ". Current Deker limit per array/subset is " ++ limit_human
       ++ ". Value in config: " ++ Py.str_of_int mem_limit_from_settings
       ++ " bytes. Reduce shape or dtype of your array/subset or increase Deker RAM limit."))
  else Return tt.

End AllocationGuard.

(** ** Name-based identifiers: SHA-1 and [uuid.uuid5] *)

Module Sha1.

Definition add32 (a b : Z) : Z := (a + b) mod 2 ^ 32.
Definition rotl (n x : Z) : Z :=
  Z.lor (Z.shiftl x n mod 2 ^ 32) (Z.shiftr x (32 - n)).
Definition not32 (x : Z) : Z := Z.lxor x (Z.ones 32).

(** [n] bytes of [x], most significant first. *)
Fixpoint be_bytes (n : nat) (x : Z) : list Z :=
  match n with
  | O => []
  | S k => Z.shiftr x (8 * Z.of_nat k) mod 256 :: be_bytes k x
  end.

Definition of_be_bytes (bs : list Z) : Z :=
  fold_left (fun acc b => 256 * acc + b) bs 0.

(** The message, a 1 bit, zeros up to 56 bytes modulo 64, and the length
    in bits on 8 bytes. *)
Definition pad (msg : list Z) : list Z :=
  let len := Z.of_nat (List.length msg) in
  (msg ++ [128] ++ repeat 0 (Z.to_nat ((55 - len) mod 64))
       ++ be_bytes 8 (8 * len))%list.

Fixpoint words (bs : list Z) : list Z :=
  match bs with
  | a :: b :: c :: d :: r => of_be_bytes [a; b; c; d] :: words r
  | _ => []
  end.

Fixpoint blocks (fuel : nat) (ws : list Z) : list (list Z) :=
  match fuel, ws with
  | S f, _ :: _ => firstn 16 ws :: blocks f (skipn 16 ws)
  | _, _ => []
  end.

(** The message schedule, latest word first. *)
Fixpoint expand (n : nat) (w : list Z) : list Z :=
  match n with
  | O => w
  | S k =>
      let x := Z.lxor (Z.lxor (nth 2 w 0) (nth 7 w 0))
                      (Z.lxor (nth 13 w 0) (nth 15 w 0)) in
      expand k (rotl 1 x :: w)
  end.

Definition schedule (block : list Z) : list Z := rev (expand 64 (rev block)).

Definition state : Type := (Z * Z * Z * Z * Z)%type.

Definition round (t : Z) (st : state) (w : Z) : state :=
  let '(a, b, c, d, e) := st in
  let '(f, k) :=
    if t <? 20 then (Z.lor (Z.land b c) (Z.land (not32 b) d), 0x5A827999)
    else if t <? 40 then (Z.lxor (Z.lxor b c) d, 0x6ED9EBA1)
    else if t <? 60 then
      (Z.lor (Z.lor (Z.land b c) (Z.land b d)) (Z.land c d), 0x8F1BBCDC)
    else (Z.lxor (Z.lxor b c) d, 0xCA62C1D6) in
  let temp := add32 (add32 (add32 (add32 (rotl 5 a) f) e) k) w in
  (temp, a, rotl 30 b, c, d).

Fixpoint rounds (t : Z) (ws : list Z) (st : state) : state :=
  match ws with
  | [] => st
  | w :: r => rounds (t + 1) r (round t st w)
  end.

Definition compress (h : state) (block : list Z) : state :=
  let '(h0, h1, h2, h3, h4) := h in
  let '(a, b, c, d, e) := rounds 0 (schedule block) h in
  (add32 h0 a, add32 h1 b, add32 h2 c, add32 h3 d, add32 h4 e).

Definition init : state :=
  (0x67452301, 0xEFCDAB89, 0x98BADCFE, 0x10325476, 0xC3D2E1F0).

(** [hashlib.sha1(msg).digest()]: 20 bytes. *)
Definition digest (msg : list Z) : list Z :=
  let ws := words (pad msg) in
  let '(h0, h1, h2, h3, h4) := fold_left compress (blocks (List.length ws) ws) init in
  (be_bytes 4 h0 ++ be_bytes 4 h1 ++ be_bytes 4 h2 ++ be_bytes 4 h3
     ++ be_bytes 4 h4)%list.

End Sha1.

Module Uuid.

(** A UUID is its 128-bit integer, [UUID.int]. *)
Definition t : Type := Z.

Definition NAMESPACE_DNS : t := 0x6ba7b8109dad11d180b400c04fd430c8.
Definition NAMESPACE_OID : t := 0x6ba7b8129dad11d180b400c04fd430c8.
Definition NAMESPACE_X500 : t := 0x6ba7b8149dad11d180b400c04fd430c8.

(** [bytes(name, "utf-8")] for code points below U+0100. *)
Fixpoint utf8 (name : string) : list Z :=
  match name with
  | EmptyString => []
  | String c r =>
      let n := Py.code c in
      if n <? 128 then n :: utf8 r
      else Z.lor 0xC0 (Z.shiftr n 6) :: Z.lor 0x80 (Z.land n 0x3F) :: utf8 r
  end.

(** [UUID(bytes=b, version=v)]: the variant is set to RFC 4122 and the
    version to [v]. *)
Definition of_bytes (b : list Z) (version : Z) : t :=
  let int := Sha1.of_be_bytes b in
  let int := Z.land int (Z.lnot (Z.shiftl 0xc000 48)) in
  let int := Z.lor int (Z.shiftl 0x8000 48) in
  let int := Z.land int (Z.lnot (Z.shiftl 0xf000 64)) in
  Z.lor int (Z.shiftl version 76).

(** [uuid.uuid5(namespace, name)] *)
Definition uuid5 (namespace : t) (name : string) : t :=
  let hash := Sha1.digest (Sha1.be_bytes 16 namespace ++ utf8 name)%list in
  of_bytes (firstn 16 hash) 5.

Definition hex_char (d : Z) : ascii :=
  ascii_of_nat (Z.to_nat (if d <? 10 then 48 + d else 87 + d)).

(** [n] hexadecimal digits of [x], most significant first. *)
Fixpoint hex (n : nat) (x : Z) : string :=
  match n with
  | O => EmptyString
  | S k => String (hex_char (Z.shiftr x (4 * Z.of_nat k) mod 16)) (hex k x)
  end.

(** [str(u)]: 8-4-4-4-12 hexadecimal digits. *)
Definition str (u : t) : string :=
  hex 8 (Z.shiftr u 96) ++ "-" ++ hex 4 (Z.shiftr u 80) ++ "-"
    ++ hex 4 (Z.shiftr u 64) ++ "-" ++ hex 4 (Z.shiftr u 48) ++ "-"
    ++ hex 12 u.

Definition version (u : t) : Z := Z.land (Z.shiftr u 76) 0xf.

End Uuid.

(** ** Identity generator *)

(** The argument of [generate_uid]: a member of [ArrayType], or any other
    value. *)
Inductive uid_argument : Type :=
| Member (m : ArrayType.t)
| NotMember (v : pyvalue).

Definition isinstance_ArrayType (a : uid_argument) : bool :=
  match a with Member _ => true | NotMember _ => false end.






Section IdentityGenerator.

(** [ArrayType.value]: the string label of each kind. *)
Variable value : ArrayType.t -> string.

(** The instants [deker_tools.time.get_utc] returns and their
    [isoformat()]. *)
Variable datetime : Type.
Variable isoformat : datetime -> string.

Definition namespace_of (m : ArrayType.t) : Uuid.t :=
  if ArrayType.eqb m ArrayType.array then Uuid.NAMESPACE_X500
  else Uuid.NAMESPACE_OID.

(** [now] is what [get_utc()] returns during the call. *)
Definition generate_uid (now : datetime) (array_type : uid_argument)
    : result string :=
  match array_type with
  | NotMember _ =>
      Raise (TypeError "Invalid argument type. Array type is required")
  | Member m =>
      let namespace := namespace_of m in
      Return (Uuid.str (Uuid.uuid5 namespace (value m ++ isoformat now)))
  end.

(** [issubclass(a, b)] between the classes [get_id] registers, as
    [deker.arrays] declares them, and [str(cls)]. *)
Variable issubclass : class -> class -> bool.
Variable class_repr : class -> string.




End IdentityGenerator.

(** ** The vocabulary of the properties *)

Definition int64_range (x : Z) : Prop := - 2 ^ 63 <= x < 2 ^ 63.

(** The smaller of the configured limit and what the system has left. *)
Definition effective_limit (os : os_memory) (mem_limit_from_settings : Z) : Z :=
  Z.min mem_limit_from_settings
        (virtual_memory_available os + swap_memory_free os).

Definition raises_memory_error (c : result unit) : Prop :=
  exists msg, c = Raise (DekerMemoryError msg).

(** The unit suffixes in the words of the specification: one of k, m, g in
    either case, for 1024, 1024^2 and 1024^3. *)
Definition unit_multiplier (c : ascii) : option Z :=
  match c with
  | "k" | "K" => Some 1024
  | "m" | "M" => Some (1024 ^ 2)
  | "g" | "G" => Some (1024 ^ 3)
  | _ => None
  end%char.

Definition one (c : ascii) : string := String c EmptyString.

Fixpoint contains_char (c : ascii) (s : string) : bool :=
  match s with
  | EmptyString => false
  | String c' s' => Ascii.eqb c c' || contains_char c s'
  end.

(** An input that carries no minus sign: an integer that is not negative, or
    a string without the character. *)
Definition unsigned_input (memory_limit : pyvalue) : bool :=
  match memory_limit with
  | PyInt n => 0 <=? n
  | PyStr s => negb (contains_char "-" s)
  | PyInstance _ => true
  end.

(** [sub in s] *)
Fixpoint occurs (sub s : string) : bool :=
  String.prefix sub s
  || match s with
     | EmptyString => false
     | String _ s' => occurs sub s'
     end.

Definition invalid_argument : exn :=
  TypeError "Invalid argument type. Array type is required".

(** Concrete inputs for the examples: an element type of 8 bytes, a system
    with a terabyte to spare, labels for the two kinds, instants given by
    their ISO rendering, and one object of each class. *)
Definition float64_type : element_type :=
  {| itemsize := 8; dtype_str := "<class 'numpy.float64'>" |}.

Definition plenty : os_memory :=
  {| virtual_memory_available := 2 ^ 40; swap_memory_free := 2 ^ 33 |}.

(** A formatter of the kind the guard is given: it renders a size that is
    not negative and raises ValueError on one that is. *)
Definition bytes_formatter (size : Z) : result string :=
  if size <? 0 then Raise (ValueError "math domain error")
  else Return (Py.str_of_int size ++ " B").

Definition labels (m : ArrayType.t) : string :=
  match m with
  | ArrayType.array => "array"
  | ArrayType.varray => "varray"
  end.

Definition rendered (instant : string) : string := instant.

Definition an_instant : string := "2024-05-17T08:30:00.123456+00:00".

Definition another_instant : string := "2024-05-17T08:30:00.123457+00:00".







(** The bytes [uuid5] hashes for a kind and a name. *)
Definition hashed_message (m : ArrayType.t) (name : string) : list Z :=
  (Sha1.be_bytes 16 (namespace_of m) ++ Uuid.utf8 name)%list.

(** The first character of a UTF-8 byte string below U+0100, and the bytes
    after it. *)
Definition utf8_head (bs : list Z) : option (ascii * list Z) :=
  match bs with
  | [] => None
  | b :: r =>
      if b <? 128 then Some (ascii_of_nat (Z.to_nat b), r)
      else
        match r with
        | [] => None
        | b2 :: r2 =>
            Some (ascii_of_nat (Z.to_nat (64 * Z.land b 3 + Z.land b2 63)), r2)
        end
  end.

(** The number a string of decimal digits denotes, read from the left
    onto [acc]. *)
Fixpoint uint_value (d : Decimal.uint) (acc : Z) : Z :=
  match d with
  | Decimal.Nil => acc
  | Decimal.D0 l => uint_value l (10 * acc + 0)
  | Decimal.D1 l => uint_value l (10 * acc + 1)
  | Decimal.D2 l => uint_value l (10 * acc + 2)
  | Decimal.D3 l => uint_value l (10 * acc + 3)
  | Decimal.D4 l => uint_value l (10 * acc + 4)
  | Decimal.D5 l => uint_value l (10 * acc + 5)
  | Decimal.D6 l => uint_value l (10 * acc + 6)
  | Decimal.D7 l => uint_value l (10 * acc + 7)
  | Decimal.D8 l => uint_value l (10 * acc + 8)
  | Decimal.D9 l => uint_value l (10 * acc + 9)
  end.

Definition ends_with (c : ascii) (s : string) : Prop :=
  exists prefix, s = prefix ++ one c.

(** A character [int] takes for nothing: no blank, no digit, no underscore,
    no sign. *)
Definition stops_int (c : ascii) : bool :=
  negb (Py.isspace c)
  && match Py.digit_value c with Some _ => false | None => true end
  && negb (Py.is_underscore c)
  && negb (Py.code c =? 43) && negb (Py.code c =? 45).

(** What [convert_human_memory_to_bytes] accepts of a string, in the words
    of its error message: a number, or a number and a unit. *)
Definition reads_as (s : string) (n : Z) : Prop :=
  Py.int s = Return n
  \/ exists prefix c k multiplier,
       s = prefix ++ one c
       /\ unit_multiplier c = Some multiplier
       /\ Py.int prefix = Return k
       /\ n = k * multiplier.

(** An integer that neither 64-bit type of NumPy holds. *)
Definition beyond_64_bits (x : Z) : Prop := x < - 2 ^ 63 \/ 2 ^ 64 <= x.

(** The two values a float64 product is left with once a zero has been
    multiplied in. *)
Definition zero_or_nan (d : Numpy.double) : Prop :=
  d = Numpy.Finite 0 \/ d = Numpy.NaN.

Definition not_a_number : exn :=
  ValueError "cannot convert float NaN to integer".

(** A digit of the canonical form of a UUID: 0-9 or a-f. *)
Definition is_lower_hex (c : ascii) : bool :=
  let n := Py.code c in
  ((48 <=? n) && (n <=? 57)) || ((97 <=? n) && (n <=? 102)).

Fixpoint all_chars (p : ascii -> bool) (s : string) : bool :=
  match s with
  | EmptyString => true
  | String c r => p c && all_chars p r
  end.

(** The first digit of the fourth group of an RFC 4122 UUID. *)
Definition is_variant_digit (c : ascii) : Prop :=
  (c = "8" \/ c = "9" \/ c = "a" \/ c = "b")%char.

Ltac each_char c := destruct c as [[] [] [] [] [] [] [] []].

(** * Properties *)

(** ** The product of a shape in 64-bit arithmetic *)

Section WrapAround.

Import Numpy.

Lemma wrap_int64_range z : int64_range (wrap_int64 z).
Proof.
  unfold int64_range, wrap_int64.
  pose proof (Z.mod_pos_bound (z + 2 ^ 63) (2 ^ 64) ltac:(lia)). lia.
Qed.

Lemma wrap_int64_id z : int64_range z -> wrap_int64 z = z.
Proof.
  unfold int64_range, wrap_int64. intros H.
  rewrite Z.mod_small by lia. lia.
Qed.

Lemma wrap_int64_mul_l a b : wrap_int64 (wrap_int64 a * b) = wrap_int64 (a * b).
Proof.
  unfold wrap_int64. f_equal.
  pose proof (Z.div_mod (a + 2 ^ 63) (2 ^ 64) ltac:(lia)) as E.
  replace ((a + 2 ^ 63) mod 2 ^ 64 - 2 ^ 63)
    with (a + - ((a + 2 ^ 63) / 2 ^ 64) * 2 ^ 64) by lia.
  replace ((a + - ((a + 2 ^ 63) / 2 ^ 64) * 2 ^ 64) * b + 2 ^ 63)
    with (a * b + 2 ^ 63 + (- ((a + 2 ^ 63) / 2 ^ 64) * b) * 2 ^ 64) by ring.
  apply Z_mod_plus_full.
Qed.

Lemma product_app l1 l2 : product (l1 ++ l2) = product l1 * product l2.
Proof.
  unfold product. induction l1 as [|x l1 IH]; simpl.
  - destruct (fold_right Z.mul 1 l2); reflexivity.
  - rewrite IH. ring.
Qed.

(** Reducing with a wrap after every multiplication is the wrap of the
    whole product. *)
Lemma reduce_int64 l acc :
  fold_left (fun a x => wrap_int64 (a * x)) l (wrap_int64 acc)
  = wrap_int64 (acc * product l).
Proof.
  revert acc. induction l as [|x l IH]; intros acc; simpl.
  - unfold product; simpl. rewrite Z.mul_1_r. reflexivity.
  - rewrite wrap_int64_mul_l, IH. unfold product; simpl.
    f_equal. ring.
Qed.

Lemma discover_int64 x : int64_range x -> discover x = int64.
Proof.
  unfold int64_range, discover. intros [H1 H2].
  apply Z.leb_le in H1. apply Z.ltb_lt in H2. rewrite H1, H2. reflexivity.
Qed.

Lemma array_dtype_int64 x xs :
  Forall int64_range (x :: xs) -> array_dtype (x :: xs) = int64.
Proof.
  intros H. inversion H as [|? ? Hx Hxs]; subst. simpl.
  rewrite (discover_int64 x Hx). clear H Hx.
  induction Hxs as [|y ys Hy _ IH]; simpl; [reflexivity|].
  rewrite (discover_int64 y Hy). exact IH.
Qed.

(** On a shape whose extents all fit the signed 64-bit type the call
    returns the product wrapped to that type. *)
Lemma total_cells_int64 seq :
  Forall int64_range seq ->
  calculate_total_cells_in_array seq
  = Return (match seq with [] => 1 | _ => wrap_int64 (product seq) end).
Proof.
  intros H. destruct seq as [|x xs]; [reflexivity|].
  unfold calculate_total_cells_in_array, array.
  rewrite (array_dtype_int64 x xs H). cbn [prod to_int].
  change 1 with (wrap_int64 1) at 1.
  rewrite reduce_int64. rewrite Z.mul_1_l. reflexivity.
Qed.

End WrapAround.

Lemma product_zero seq : In 0 seq -> product seq = 0.
Proof.
  unfold product. induction seq as [|x l IH]; simpl; [tauto|].
  intros [-> | H]; [reflexivity|]. rewrite (IH H). ring.
Qed.

Lemma Forall_int64_range_of_extents seq :
  Forall (fun x => 0 <= x < 2 ^ 63) seq -> Forall int64_range seq.
Proof.
  apply Forall_impl. unfold int64_range. intros x H. lia.
Qed.

(** ** calculate_total_cells_in_array *)

Lemma product_nonneg seq :
  Forall (fun x => 0 <= x < 2 ^ 63) seq -> 0 <= product seq.
Proof.
  unfold product. induction 1 as [|y l Hy _ IH]; simpl; nia.
Qed.

Lemma total_cells_in_range seq :
  Forall (fun x => 0 <= x < 2 ^ 63) seq ->
  product seq < 2 ^ 63 ->
  calculate_total_cells_in_array seq = Return (product seq).
Proof.
  intros Hext Hprod.
  rewrite (total_cells_int64 seq (Forall_int64_range_of_extents seq Hext)).
  destruct seq as [|x xs]; [reflexivity|].
  f_equal. apply wrap_int64_id. split; [|exact Hprod].
  pose proof (product_nonneg _ Hext). lia.
Qed.

(** The number of cells is the product of the extents whenever the extents
    and their product fit the signed 64-bit type; the empty shape has one
    cell. *)
Theorem total_cells_is_product seq :
  Forall (fun x => 0 <= x < 2 ^ 63) seq ->
  product seq < 2 ^ 63 ->
  calculate_total_cells_in_array seq = Return (product seq).
Proof. exact (total_cells_in_range seq). Qed.

Lemma total_cells_is_product_witness :
  calculate_total_cells_in_array [1000; 1000] = Return 1000000
  /\ calculate_total_cells_in_array [] = Return 1.
Proof.
  split.
  - apply (total_cells_is_product [1000; 1000]).
    + repeat constructor; lia.
    + vm_compute; reflexivity.
  - apply (total_cells_is_product []).
    + constructor.
    + vm_compute; reflexivity.
Defined.

(** C3, at the shape (4294967296, 4294967296): the extents multiply to 2^64,
    and the call returns 0, the product wrapped to 64 bits. *)
Theorem total_cells_wraps_product :
  calculate_total_cells_in_array [2 ^ 32; 2 ^ 32] = Return 0
  /\ product [2 ^ 32; 2 ^ 32] = 2 ^ 64.
Proof. split; vm_compute; reflexivity. Qed.

(** C5, at the shape (2^62, 4): the product of the extents, 2^64, is
    beyond the 64-bit range, and the call raises nothing: it returns 0, the
    product wrapped to 64 bits. *)
Theorem total_cells_overflow_is_silent :
  2 ^ 64 - 1 < product [2 ^ 62; 4]
  /\ calculate_total_cells_in_array [2 ^ 62; 4] = Return 0.
Proof. split; vm_compute; reflexivity. Qed.

(** ** check_memory *)

Section GuardProperties.

Variable convert_size_to_human : Z -> result string.

(** Once the formatter has rendered the size and the limit, the guard
    compares the cell count times the item size with the smaller of the
    configured limit and the memory the system reports. *)
Lemma check_memory_decides os shape dtype limit cells size_human limit_human :
  calculate_total_cells_in_array shape = Return cells ->
  convert_size_to_human (itemsize dtype * cells) = Return size_human ->
  convert_size_to_human (effective_limit os limit) = Return limit_human ->
  (itemsize dtype * cells > effective_limit os limit ->
     raises_memory_error
       (check_memory convert_size_to_human os shape dtype limit))
  /\ (itemsize dtype * cells <= effective_limit os limit ->
     check_memory convert_size_to_human os shape dtype limit = Return tt).
Proof.
  intros E Hsize Hlimit. unfold check_memory, effective_limit in *.
  rewrite E. cbn [bind]. rewrite Hsize. cbn [bind]. rewrite Hlimit. cbn [bind].
  destruct (Z.gtb_spec (itemsize dtype * cells)
              (Z.min limit (virtual_memory_available os + swap_memory_free os)))
    as [Hgt | Hle].
  - split; intros H; [eexists; reflexivity | lia].
  - split; intros H; [lia | reflexivity].
Qed.

(** What the formatter raises on the size, the guard raises. *)
Lemma check_memory_size_error os shape dtype limit cells e :
  calculate_total_cells_in_array shape = Return cells ->
  convert_size_to_human (itemsize dtype * cells) = Raise e ->
  check_memory convert_size_to_human os shape dtype limit = Raise e.
Proof.
  intros E Hsize. unfold check_memory. rewrite E. cbn [bind].
  rewrite Hsize. reflexivity.
Qed.

(** On a shape whose extents and product fit the signed 64-bit type, and
    for a size and an effective limit that the formatter renders, the guard
    raises DekerMemoryError exactly when the product of the extents times
    the item size exceeds the effective limit, and returns otherwise. *)
Theorem check_memory_guards os shape dtype limit size_human limit_human :
  Forall (fun x => 0 <= x < 2 ^ 63) shape ->
  product shape < 2 ^ 63 ->
  convert_size_to_human (itemsize dtype * product shape) = Return size_human ->
  convert_size_to_human (effective_limit os limit) = Return limit_human ->
  (product shape * itemsize dtype > effective_limit os limit ->
     raises_memory_error
       (check_memory convert_size_to_human os shape dtype limit))
  /\ (product shape * itemsize dtype <= effective_limit os limit ->
     check_memory convert_size_to_human os shape dtype limit = Return tt).
Proof.
  intros Hext Hprod Hsize Hlimit.
  pose proof (check_memory_decides os shape dtype limit (product shape) _ _
                (total_cells_in_range shape Hext Hprod) Hsize Hlimit)
    as [H1 H2].
  rewrite (Z.mul_comm (product shape)). split; assumption.
Qed.

(** The shape (1000, 1000) with 8-byte elements needs 8,000,000 bytes: a
    configured limit of 7,000,000 bytes fails whatever the system reports,
    and a limit of 9,000,000 bytes passes when the system has that much;
    the formatter renders these three sizes. *)
Theorem check_memory_million_cells os dtype size_human low_human high_human :
  itemsize dtype = 8 ->
  9000000 <= virtual_memory_available os + swap_memory_free os ->
  convert_size_to_human 8000000 = Return size_human ->
  convert_size_to_human 7000000 = Return low_human ->
  convert_size_to_human 9000000 = Return high_human ->
  raises_memory_error
    (check_memory convert_size_to_human os [1000; 1000] dtype 7000000)
  /\ check_memory convert_size_to_human os [1000; 1000] dtype 9000000
     = Return tt.
Proof.
  intros Hitem Hmem Hsize Hlow Hhigh.
  assert (E : calculate_total_cells_in_array [1000; 1000] = Return 1000000)
    by (vm_compute; reflexivity).
  assert (Elow : effective_limit os 7000000 = 7000000)
    by (unfold effective_limit; lia).
  assert (Ehigh : effective_limit os 9000000 = 9000000)
    by (unfold effective_limit; lia).
  split.
  - apply (check_memory_decides os [1000; 1000] dtype 7000000 1000000
             size_human low_human E).
    + rewrite Hitem. exact Hsize.
    + rewrite Elow. exact Hlow.
    + rewrite Hitem, Elow. lia.
  - apply (check_memory_decides os [1000; 1000] dtype 9000000 1000000
             size_human high_human E).
    + rewrite Hitem. exact Hsize.
    + rewrite Ehigh. exact Hhigh.
    + rewrite Hitem, Ehigh. lia.
Qed.

End GuardProperties.

Lemma check_memory_guards_witness :
  (product [1000; 1000] * 8 > effective_limit plenty 7000000 ->
     raises_memory_error
       (check_memory bytes_formatter plenty [1000; 1000] float64_type 7000000))
  /\ (product [1000; 1000] * 8 <= effective_limit plenty 7000000 ->
     check_memory bytes_formatter plenty [1000; 1000] float64_type 7000000
     = Return tt).
Proof.
  apply (check_memory_guards bytes_formatter plenty [1000; 1000]
           float64_type 7000000 "8000000 B" "7000000 B").
  - repeat constructor; lia.
  - vm_compute; reflexivity.
  - vm_compute; reflexivity.
  - vm_compute; reflexivity.
Defined.

Lemma check_memory_million_cells_witness :
  raises_memory_error
    (check_memory bytes_formatter plenty [1000; 1000] float64_type 7000000)
  /\ check_memory bytes_formatter plenty [1000; 1000] float64_type 9000000
     = Return tt.
Proof.
  apply (check_memory_million_cells bytes_formatter plenty float64_type
           "8000000 B" "7000000 B" "9000000 B").
  - reflexivity.
  - vm_compute. discriminate.
  - vm_compute; reflexivity.
  - vm_compute; reflexivity.
  - vm_compute; reflexivity.
Defined.

(** C1, at the shape (4294967296, 4294967296) with 8-byte elements and a
    configured limit of 7,000,000 bytes: the extents times the item size
    exceed the effective limit, and the guard returns normally, with any
    formatter that renders the two sizes it is given, 0 and 7,000,000. *)
Theorem check_memory_admits_wrapped_shape
    (convert_size_to_human : Z -> result string) size_human limit_human :
  convert_size_to_human 0 = Return size_human ->
  convert_size_to_human 7000000 = Return limit_human ->
  product [2 ^ 32; 2 ^ 32] * itemsize float64_type
    > effective_limit plenty 7000000
  /\ check_memory convert_size_to_human plenty [2 ^ 32; 2 ^ 32] float64_type
       7000000 = Return tt.
Proof.
  intros Hsize Hlimit. split; [vm_compute; reflexivity|].
  unfold check_memory.
  change (calculate_total_cells_in_array [2 ^ 32; 2 ^ 32]) with (Return 0).
  cbn [bind]. change (itemsize float64_type * 0) with 0. rewrite Hsize.
  cbn [bind].
  change (Z.min 7000000
            (virtual_memory_available plenty + swap_memory_free plenty))
    with 7000000.
  rewrite Hlimit. reflexivity.
Qed.

Lemma check_memory_admits_wrapped_shape_witness :
  product [2 ^ 32; 2 ^ 32] * itemsize float64_type
    > effective_limit plenty 7000000
  /\ check_memory bytes_formatter plenty [2 ^ 32; 2 ^ 32] float64_type
       7000000 = Return tt.
Proof.
  apply (check_memory_admits_wrapped_shape bytes_formatter "0 B" "7000000 B");
    vm_compute; reflexivity.
Defined.

(** C10, at the shape of sixteen extents 2^64 - 1 followed by a zero
    extent: NumPy holds it as float64, the running product overflows to
    infinity, infinity times zero is not a number, and the conversion to
    int raises ValueError, which the guard lets through, where a count of 0
    cells and a normal return are due. *)
Theorem zero_extent_after_float_overflow
    (convert_size_to_human : Z -> result string) os dtype limit :
  In 0 (repeat (2 ^ 64 - 1) 16 ++ [0])
  /\ calculate_total_cells_in_array (repeat (2 ^ 64 - 1) 16 ++ [0])
     = Raise (ValueError "cannot convert float NaN to integer")
  /\ check_memory convert_size_to_human os (repeat (2 ^ 64 - 1) 16 ++ [0])
       dtype limit
     = Raise (ValueError "cannot convert float NaN to integer").
Proof.
  assert (E : calculate_total_cells_in_array (repeat (2 ^ 64 - 1) 16 ++ [0])
              = Raise (ValueError "cannot convert float NaN to integer"))
    by (vm_compute; reflexivity).
  split; [apply in_or_app; right; left; reflexivity|].
  split; [exact E|].
  unfold check_memory. rewrite E. reflexivity.
Qed.

(** ** convert_human_memory_to_bytes *)

Section ParserFacts.

Lemma getitem_unit c u :
  unit_multiplier c = Some u ->
  Py.getitem mapping (one (Py.lower_char c)) = Return u.
Proof.
  each_char c; vm_compute; intros H; try discriminate H;
    injection H as <-; reflexivity.
Qed.

Lemma getitem_no_unit c :
  unit_multiplier c = None ->
  Py.getitem mapping (one (Py.lower_char c))
  = Raise (KeyError (one (Py.lower_char c))).
Proof.
  each_char c; vm_compute; intros H; try discriminate H; reflexivity.
Qed.

Lemma getitem_mapping_positive key u :
  Py.getitem mapping key = Return u -> 0 < u.
Proof.
  unfold mapping, bytes_. cbn [Py.getitem].
  repeat (destruct (String.eqb _ key); [intros [= <-]; lia|]).
  discriminate.
Qed.

Lemma last_cons c s :
  s <> EmptyString -> Py.last (String c s) = Py.last s.
Proof. destruct s; [congruence | reflexivity]. Qed.

Lemma last_lower_app prefix c :
  Py.last (Py.lower (prefix ++ one c)) = Return (one (Py.lower_char c)).
Proof.
  induction prefix as [|a prefix IH]; [reflexivity|].
  cbn [append Py.lower]. rewrite last_cons; [exact IH|].
  destruct prefix; discriminate.
Qed.

Lemma but_last_app prefix c : Py.but_last (prefix ++ one c) = prefix.
Proof.
  induction prefix as [|a prefix IH]; [reflexivity|].
  cbn [append]. cbn [append] in IH.
  destruct (prefix ++ one c)%string eqn:E.
  - destruct prefix; discriminate E.
  - cbn [Py.but_last]. cbn [Py.but_last] in IH. rewrite IH. reflexivity.
Qed.

Lemma last_empty s e : Py.last (Py.lower s) = Raise e -> s = EmptyString.
Proof.
  induction s as [|c s IH]; [reflexivity|].
  cbn [Py.lower]. destruct s as [|c' s'].
  - discriminate.
  - intros H. rewrite last_cons in H by discriminate.
    specialize (IH H). discriminate IH.
Qed.

(** [int] raises nothing but ValueError. *)
Lemma int_raises s e : Py.int s = Raise e -> e = Py.invalid_literal.
Proof.
  unfold Py.int. destruct (Py.split_sign (Py.lstrip s)) as [neg body].
  destruct body as [|c r]; [intros [= <-]; reflexivity|].
  destruct (Py.digit_value c) as [d|]; [|intros [= <-]; reflexivity].
  destruct (Py.digits_tail r d) as [[n rest]|]; [|intros [= <-]; reflexivity].
  destruct (Py.lstrip rest); [discriminate | intros [= <-]; reflexivity].
Qed.

Lemma digit_value_range c d : Py.digit_value c = Some d -> 0 <= d <= 9.
Proof.
  unfold Py.digit_value.
  destruct (Z.leb_spec 48 (Py.code c)), (Z.leb_spec (Py.code c) 57);
    cbn [andb]; intros [= <-]; lia.
Qed.

Lemma digits_tail_nonneg (fuel : nat) :
  forall s acc n rest,
    (String.length s <= fuel)%nat -> 0 <= acc ->
    Py.digits_tail s acc = Some (n, rest) -> 0 <= n.
Proof.
  induction fuel as [|fuel IH]; intros s acc n rest Hlen Hacc.
  - destruct s; [|cbn in Hlen; lia]. cbn. intros [= <- _]. exact Hacc.
  - destruct s as [|c s']; [cbn; intros [= <- _]; exact Hacc|].
    cbn [Py.digits_tail]. cbn [String.length] in Hlen.
    destruct (Py.digit_value c) as [d|] eqn:Ed.
    + apply digit_value_range in Ed. apply IH; lia.
    + destruct (Py.is_underscore c); [|intros [= <- _]; exact Hacc].
      destruct s' as [|c2 s'']; [discriminate|].
      destruct (Py.digit_value c2) as [d|] eqn:Ed2; [|discriminate].
      apply digit_value_range in Ed2. cbn [String.length] in Hlen.
      apply IH; lia.
Qed.

Lemma contains_char_lstrip c s :
  contains_char c (Py.lstrip s) = true -> contains_char c s = true.
Proof.
  induction s as [|a s IH]; [exact (fun H => H)|].
  cbn [Py.lstrip]. destruct (Py.isspace a); [|exact (fun H => H)].
  intros H. cbn [contains_char]. rewrite (IH H). apply orb_true_r.
Qed.

Lemma contains_char_but_last c s :
  contains_char c s = false -> contains_char c (Py.but_last s) = false.
Proof.
  induction s as [|a s IH]; [reflexivity|].
  cbn [contains_char]. intros H. apply orb_false_elim in H as [Ha Hs].
  destruct s as [|b s']; [reflexivity|].
  change (Py.but_last (String a (String b s')))
    with (String a (Py.but_last (String b s'))).
  cbn [contains_char]. rewrite Ha, (IH Hs). reflexivity.
Qed.

Lemma split_sign_negative s body :
  Py.split_sign s = (true, body) -> contains_char "-" s = true.
Proof.
  destruct s as [|c r]; [discriminate|]. cbn [Py.split_sign].
  destruct (Py.code c =? 43); [discriminate|].
  destruct (Py.code c =? 45) eqn:E; [|discriminate]. intros _.
  each_char c; vm_compute in E; try discriminate E; reflexivity.
Qed.

(** Without a minus sign [int] reads no negative number. *)
Lemma int_nonneg s n :
  contains_char "-" s = false -> Py.int s = Return n -> 0 <= n.
Proof.
  intros Hminus. unfold Py.int.
  destruct (Py.split_sign (Py.lstrip s)) as [neg body] eqn:Esign.
  destruct neg.
  - apply split_sign_negative, contains_char_lstrip in Esign. congruence.
  - destruct body as [|c r]; [discriminate|].
    destruct (Py.digit_value c) as [d|] eqn:Ed; [|discriminate].
    destruct (Py.digits_tail r d) as [[k rest]|] eqn:Et; [|discriminate].
    destruct (Py.lstrip rest); [|discriminate]. intros [= <-].
    apply digit_value_range in Ed.
    apply (digits_tail_nonneg (String.length r) r d k rest); [lia | lia | exact Et].
Qed.

End ParserFacts.

(** C2: an integer is returned unchanged; a string that [int] reads is
    returned as the number read; otherwise a last character that is one of
    k, m, g in either case selects 1024, 1024^2 or 1024^3, and the result is
    the integer read from the rest times that multiplier.  So "8G" gives
    8 * 1024^3, "512m" gives 512 * 1024^2 and "1024" gives 1024. *)
Theorem convert_human_memory_to_bytes_parses :
  (forall n, convert_human_memory_to_bytes (PyInt n) = Return n)
  /\ (forall s n,
        Py.int s = Return n ->
        convert_human_memory_to_bytes (PyStr s) = Return n)
  /\ (forall prefix c n multiplier,
        (forall k, Py.int (prefix ++ one c) <> Return k) ->
        unit_multiplier c = Some multiplier ->
        Py.int prefix = Return n ->
        convert_human_memory_to_bytes (PyStr (prefix ++ one c))
        = Return (n * multiplier))
  /\ convert_human_memory_to_bytes (PyStr "8G") = Return (8 * 1024 ^ 3)
  /\ convert_human_memory_to_bytes (PyStr "512m") = Return (512 * 1024 ^ 2)
  /\ convert_human_memory_to_bytes (PyStr "1024") = Return 1024.
Proof.
  split; [reflexivity|].
  split.
  { intros s n H. unfold convert_human_memory_to_bytes. rewrite H. reflexivity. }
  split.
  { intros prefix c n multiplier Hplain Hunit Hprefix.
    unfold convert_human_memory_to_bytes.
    destruct (Py.int (prefix ++ one c)) as [k|e] eqn:E.
    - exfalso. exact (Hplain k eq_refl).
    - apply int_raises in E. subst e. cbn [try_except Py.invalid_literal is_ValueError].
      rewrite last_lower_app. cbn [bind].
      rewrite but_last_app, Hprefix. cbn [bind].
      rewrite (getitem_unit c multiplier Hunit). reflexivity. }
  repeat split; vm_compute; reflexivity.
Qed.

Lemma convert_human_memory_to_bytes_parses_witness :
  convert_human_memory_to_bytes (PyInt 4096) = Return 4096
  /\ convert_human_memory_to_bytes (PyStr " 2048 ") = Return 2048
  /\ convert_human_memory_to_bytes (PyStr "16K") = Return (16 * 1024).
Proof.
  destruct convert_human_memory_to_bytes_parses as (Hint & Hplain & Hunit & _).
  split; [apply Hint|]. split.
  - apply Hplain. reflexivity.
  - apply (Hunit "16" "K"%char 16 1024).
    + intros k. vm_compute. discriminate.
    + reflexivity.
    + reflexivity.
Defined.

(** C4, at the empty string: the call raises IndexError, from the
    subscript [memory_limit.lower()[-1]] that stands outside the [try]. *)
Theorem convert_human_memory_to_bytes_empty_string :
  convert_human_memory_to_bytes (PyStr EmptyString)
  = Raise (IndexError "string index out of range").
Proof. reflexivity. Qed.

(** Every other input that is refused is refused with DekerValidationError,
    whose message names the value and the accepted formats. *)
Theorem convert_human_memory_to_bytes_rejects memory_limit e :
  convert_human_memory_to_bytes memory_limit = Raise e ->
  memory_limit <> PyStr EmptyString ->
  e = DekerValidationError
        ("invalid memory_limit value: " ++ py_str memory_limit
         ++ accepted_formats).
Proof.
  intros H Hne.
  destruct memory_limit as [n | s | o]; unfold convert_human_memory_to_bytes in H.
  - discriminate H.
  - destruct (Py.int s) as [k|e0] eqn:E; [discriminate H|].
    apply int_raises in E. subst e0.
    cbn [try_except Py.invalid_literal is_ValueError] in H.
    destruct (Py.last (Py.lower s)) as [div|e1] eqn:El.
    + cbn [bind] in H.
      destruct (Py.int (Py.but_last s)) as [k|e2]; cbn [bind try_except] in H.
      * destruct (Py.getitem mapping div); cbn [bind try_except is_Exception] in H;
          [discriminate H | injection H as <-; reflexivity].
      * cbn [is_Exception] in H. injection H as <-. reflexivity.
    + apply last_empty in El. subst s. congruence.
  - injection H as <-. reflexivity.
Qed.

Lemma convert_human_memory_to_bytes_rejects_witness :
  DekerValidationError (memory_limit_error (PyStr "8x"))
  = DekerValidationError
      ("invalid memory_limit value: " ++ py_str (PyStr "8x")
       ++ accepted_formats).
Proof.
  apply (convert_human_memory_to_bytes_rejects (PyStr "8x")
           (DekerValidationError (memory_limit_error (PyStr "8x")))).
  - vm_compute. reflexivity.
  - discriminate.
Defined.

(** The inputs "abc", "8x" and 3.5 are refused with DekerValidationError. *)
Theorem convert_human_memory_to_bytes_malformed :
  convert_human_memory_to_bytes (PyStr "abc")
  = Raise (DekerValidationError (memory_limit_error (PyStr "abc")))
  /\ convert_human_memory_to_bytes (PyStr "8x")
     = Raise (DekerValidationError (memory_limit_error (PyStr "8x")))
  /\ convert_human_memory_to_bytes py_3_5
     = Raise (DekerValidationError (memory_limit_error py_3_5)).
Proof. repeat split; vm_compute; reflexivity. Qed.

(** C6 fails at the integer -5 and at the string "-1k": both are accepted,
    and the values returned, -5 and -1024, are negative. *)
Lemma convert_human_memory_to_bytes_negative :
  convert_human_memory_to_bytes (PyInt (-5)) = Return (-5)
  /\ convert_human_memory_to_bytes (PyStr "-1k") = Return (-1024).
Proof. split; vm_compute; reflexivity. Qed.

(** C6 as amended: the value returned is an integer, and it is not negative
    when the input is an integer that is not negative or a string without a
    minus sign. *)
Theorem convert_human_memory_to_bytes_nonneg memory_limit n :
  convert_human_memory_to_bytes memory_limit = Return n ->
  unsigned_input memory_limit = true ->
  0 <= n.
Proof.
  destruct memory_limit as [k | s | o]; cbn [unsigned_input].
  - intros [= <-] H. apply Z.leb_le. exact H.
  - intros H Hminus. apply negb_true_iff in Hminus.
    unfold convert_human_memory_to_bytes in H.
    destruct (Py.int s) as [k|e0] eqn:E.
    + injection H as <-. exact (int_nonneg s k Hminus E).
    + apply int_raises in E. subst e0.
      cbn [try_except Py.invalid_literal is_ValueError] in H.
      destruct (Py.last (Py.lower s)) as [div|e1]; [|discriminate H].
      cbn [bind] in H.
      destruct (Py.int (Py.but_last s)) as [k|e2] eqn:Ek;
        cbn [bind try_except is_Exception] in H; [|discriminate H].
      destruct (Py.getitem mapping div) as [u|e3] eqn:Eu;
        cbn [bind try_except is_Exception] in H; [|discriminate H].
      injection H as <-.
      pose proof (int_nonneg _ k (contains_char_but_last _ s Hminus) Ek).
      pose proof (getitem_mapping_positive div u Eu). nia.
  - discriminate.
Qed.

Lemma convert_human_memory_to_bytes_nonneg_witness : 0 <= 8 * 1024 ^ 3.
Proof.
  apply (convert_human_memory_to_bytes_nonneg (PyStr "8G") (8 * 1024 ^ 3)).
  - vm_compute. reflexivity.
  - reflexivity.
Defined.

(** ** uuid5 *)

(** The digests of the standard test messages, and the identifier the
    library documents for the name python.org. *)
Example sha1_abc :
  Uuid.hex 40 (Sha1.of_be_bytes (Sha1.digest (Uuid.utf8 "abc")))
  = "a9993e364706816aba3e25717850c26c9cd0d89d".
Proof. vm_compute. reflexivity. Qed.

Example sha1_two_blocks :
  Uuid.hex 40 (Sha1.of_be_bytes (Sha1.digest (Uuid.utf8
    "abcdbcdecdefdefgefghfghighijhijkijkljklmklmnlmnomnopnopq")))
  = "84983e441c3bd26ebaae4aa1f95129e5e54670f1".
Proof. vm_compute. reflexivity. Qed.

Example uuid5_python_org :
  Uuid.str (Uuid.uuid5 Uuid.NAMESPACE_DNS "python.org")
  = "886313e1-3b8a-5372-9b90-0c9aee199e5d".
Proof. vm_compute. reflexivity. Qed.

Lemma length_append (a b : string) :
  String.length (a ++ b) = (String.length a + String.length b)%nat.
Proof. induction a as [|c a IH]; cbn; [reflexivity | rewrite IH; reflexivity]. Qed.

Lemma length_hex n x : String.length (Uuid.hex n x) = n.
Proof. induction n as [|n IH]; cbn; [reflexivity | rewrite IH; reflexivity]. Qed.

(** The canonical form of an identifier has 36 characters. *)
Lemma length_uuid_str u : String.length (Uuid.str u) = 36%nat.
Proof.
  unfold Uuid.str. rewrite !length_append, !length_hex. reflexivity.
Qed.

(** Whatever the bytes, [UUID(bytes=b, version=5)] has version 5. *)
Lemma version_of_bytes b : Uuid.version (Uuid.of_bytes b 5) = 5.
Proof.
  unfold Uuid.version, Uuid.of_bytes.
  set (int := Z.lor (Z.land (Sha1.of_be_bytes b) (Z.lnot (Z.shiftl 0xc000 48)))
                    (Z.shiftl 0x8000 48)).
  apply Z.bits_inj'. intros n Hn.
  rewrite Z.land_spec, Z.shiftr_spec, Z.lor_spec, Z.land_spec by lia.
  rewrite Z.shiftl_spec by lia. replace (n + 76 - 76) with n by lia.
  destruct (Z.ltb_spec n 4) as [Hlt | Hge].
  - assert (Hmask : Z.testbit (Z.lnot (Z.shiftl 0xf000 64)) (n + 76) = false).
    { assert (n = 0 \/ n = 1 \/ n = 2 \/ n = 3) as [-> | [-> | [-> | ->]]] by lia;
        reflexivity. }
    rewrite Hmask, andb_false_r, orb_false_l.
    assert (n = 0 \/ n = 1 \/ n = 2 \/ n = 3) as [-> | [-> | [-> | ->]]] by lia;
      reflexivity.
  - change 0xf with (Z.ones 4). rewrite Z.ones_spec_high by lia.
    rewrite andb_false_r. symmetry. apply Z.bits_above_log2; [lia|].
    change (Z.log2 5) with 2. lia.
Qed.

Lemma version_uuid5 namespace name :
  Uuid.version (Uuid.uuid5 namespace name) = 5.
Proof. apply version_of_bytes. Qed.

(** ** generate_uid and get_id *)

Lemma utf8_head_cons c r :
  utf8_head (Uuid.utf8 (String c r)) = Some (c, Uuid.utf8 r).
Proof. each_char c; reflexivity. Qed.

(** The bytes of a name determine the name. *)
Lemma utf8_injective s1 :
  forall s2, Uuid.utf8 s1 = Uuid.utf8 s2 -> s1 = s2.
Proof.
  induction s1 as [|c1 r1 IH]; intros [|c2 r2] H.
  - reflexivity.
  - apply (f_equal utf8_head) in H. rewrite utf8_head_cons in H. discriminate H.
  - apply (f_equal utf8_head) in H. rewrite utf8_head_cons in H. discriminate H.
  - apply (f_equal utf8_head) in H. rewrite !utf8_head_cons in H.
    injection H as -> H. rewrite (IH r2 H). reflexivity.
Qed.

(** The bytes that are hashed determine the kind and the name: two
    identifiers coincide only where SHA-1 does. *)
Lemma hashed_message_injective m1 name1 m2 name2 :
  hashed_message m1 name1 = hashed_message m2 name2 ->
  m1 = m2 /\ name1 = name2.
Proof.
  unfold hashed_message. intros H.
  destruct m1, m2.
  - apply app_inv_head in H. split; [reflexivity | exact (utf8_injective _ _ H)].
  - apply (f_equal (firstn 4)) in H. vm_compute in H. discriminate H.
  - apply (f_equal (firstn 4)) in H. vm_compute in H. discriminate H.
  - apply app_inv_head in H. split; [reflexivity | exact (utf8_injective _ _ H)].
Qed.

Section IdentityProperties.

Variable value : ArrayType.t -> string.
Variable datetime : Type.
Variable isoformat : datetime -> string.

(** C7: for one kind, clock readings with one ISO rendering give one
    identifier.  The identifier is the canonical form of the version-5
    UUID made of the first 16 bytes of the SHA-1 digest of the bytes of the
    kind's namespace followed by the UTF-8 bytes of the kind's label and of
    the ISO rendering of the instant; these hashed bytes determine the kind
    and the label with the rendering.  The namespaces are two fixed,
    distinct constants, X500 for array and OID for varray.  With the labels
    array and varray the identifiers at 2024-05-17T08:30:00.123456+00:00
    and one microsecond later are those [uuid.uuid5] gives. *)
Theorem generate_uid_deterministic (m : ArrayType.t) (t1 t2 : datetime) :
  isoformat t1 = isoformat t2 ->
  generate_uid value datetime isoformat t1 (Member m)
  = generate_uid value datetime isoformat t2 (Member m)
  /\ generate_uid value datetime isoformat t1 (Member m)
     = Return (Uuid.str
                 (Uuid.of_bytes
                    (firstn 16
                       (Sha1.digest
                          (hashed_message m (value m ++ isoformat t1))))
                    5))
  /\ (forall m' name',
        hashed_message m (value m ++ isoformat t1) = hashed_message m' name' ->
        m = m' /\ value m ++ isoformat t1 = name')
  /\ Uuid.version (Uuid.uuid5 (namespace_of m) (value m ++ isoformat t1)) = 5
  /\ namespace_of ArrayType.array = Uuid.NAMESPACE_X500
  /\ namespace_of ArrayType.varray = Uuid.NAMESPACE_OID
  /\ Uuid.NAMESPACE_X500 <> Uuid.NAMESPACE_OID
  /\ generate_uid labels string rendered an_instant (Member ArrayType.array)
     = Return "a3d7f1be-0b3b-5cae-be37-fcf55eb93db1"
  /\ generate_uid labels string rendered an_instant (Member ArrayType.varray)
     = Return "a59e7bcb-990b-5373-be11-01f4b1ea0b32"
  /\ generate_uid labels string rendered another_instant
       (Member ArrayType.array)
     = Return "e5518ccd-0485-5a49-b6f6-a7a9ef156985".
Proof.
  intros E. split; [cbn [generate_uid]; rewrite E; reflexivity|].
  split; [reflexivity|].
  split; [intros m' name'; apply hashed_message_injective|].
  split; [apply version_uuid5|].
  split; [reflexivity|]. split; [reflexivity|]. split; [discriminate|].
  repeat split; vm_compute; reflexivity.
Qed.

(** C8 as amended: the call raises exactly when the argument is not a
    member of the enumeration, and then a TypeError with one fixed
    message; for either member it returns an identifier in full, the 36
    characters of the canonical form. *)
Theorem generate_uid_raises_iff (now : datetime) (array_type : uid_argument) :
  ((exists e, generate_uid value datetime isoformat now array_type = Raise e)
     <-> isinstance_ArrayType array_type = false)
  /\ (forall e,
        generate_uid value datetime isoformat now array_type = Raise e ->
        e = invalid_argument)
  /\ (forall m,
        array_type = Member m ->
        exists id,
          generate_uid value datetime isoformat now array_type = Return id
          /\ String.length id = 36%nat).
Proof.
  destruct array_type as [m | v]; cbn [generate_uid isinstance_ArrayType].
  - split; [split; [intros [e H]; discriminate H | discriminate]|].
    split; [discriminate|].
    intros m' _. eexists. split; [reflexivity | apply length_uuid_str].
  - split; [split; [reflexivity | intros _; eexists; reflexivity]|].
    split; [intros e [= <-]; reflexivity | discriminate].
Qed.

Variable issubclass : class -> class -> bool.
Variable class_repr : class -> string.





End IdentityProperties.

Lemma generate_uid_deterministic_witness :
  generate_uid labels string rendered an_instant (Member ArrayType.varray)
  = Return "a59e7bcb-990b-5373-be11-01f4b1ea0b32"
  /\ forall m' name',
       hashed_message ArrayType.varray
         (labels ArrayType.varray ++ rendered an_instant)
       = hashed_message m' name' ->
       ArrayType.varray = m'
       /\ labels ArrayType.varray ++ rendered an_instant = name'.
Proof.
  destruct (generate_uid_deterministic labels string rendered
              ArrayType.varray an_instant an_instant eq_refl)
    as (_ & _ & Hbytes & _ & _ & _ & _ & _ & Hid & _).
  split; [exact Hid | exact Hbytes].
Defined.

(** C8 fails at the argument "tensor": the TypeError raised has a message
    in which neither the value nor its type occurs. *)
Lemma generate_uid_error_names_nothing :
  exists msg,
    generate_uid labels string rendered an_instant (NotMember (PyStr "tensor"))
    = Raise (TypeError msg)
    /\ occurs (py_str (PyStr "tensor")) msg = false
    /\ occurs (py_type (PyStr "tensor")) msg = false.
Proof.
  eexists. split; [reflexivity|]. split; vm_compute; reflexivity.
Qed.

Lemma generate_uid_raises_iff_witness :
  generate_uid labels string rendered an_instant (NotMember (PyInt 3))
  = Raise invalid_argument
  /\ exists id,
       generate_uid labels string rendered an_instant (Member ArrayType.varray)
       = Return id
       /\ String.length id = 36%nat.
Proof.
  split.
  - destruct (generate_uid_raises_iff labels string rendered an_instant
                (NotMember (PyInt 3))) as ([_ Hraises] & Hkind & _).
    destruct (Hraises eq_refl) as [e He].
    rewrite He. f_equal. exact (Hkind e He).
  - destruct (generate_uid_raises_iff labels string rendered an_instant
                (Member ArrayType.varray)) as (_ & _ & Hmember).
    exact (Hmember ArrayType.varray eq_refl).
Defined.


(** ** More on convert_human_memory_to_bytes *)

Lemma ends_with_cons c a r :
  ends_with c (String a r) -> (a = c /\ r = EmptyString) \/ ends_with c r.
Proof.
  intros [[|b q] E]; cbn in E; injection E as -> ->.
  - left. split; reflexivity.
  - right. exists q. reflexivity.
Qed.

Lemma ends_with_nonempty c s : ends_with c s -> s <> EmptyString.
Proof. intros [[|b q] ->]; discriminate. Qed.

Lemma stops_int_spec c :
  stops_int c = true ->
  Py.isspace c = false /\ Py.digit_value c = None
  /\ Py.is_underscore c = false
  /\ (Py.code c =? 43) = false /\ (Py.code c =? 45) = false.
Proof.
  unfold stops_int. intros H.
  repeat (apply andb_true_iff in H as [H ?]).
  destruct (Py.digit_value c); [discriminate|].
  repeat split; try reflexivity; apply negb_true_iff; assumption.
Qed.

Lemma ends_with_lstrip c s :
  Py.isspace c = false -> ends_with c s -> ends_with c (Py.lstrip s).
Proof.
  intros Hc. induction s as [|a r IH]; intros H; [exact H|].
  cbn [Py.lstrip]. destruct (Py.isspace a) eqn:Ea; [|exact H].
  apply ends_with_cons in H as [[-> _] | H]; [congruence | exact (IH H)].
Qed.

Lemma ends_with_split_sign c s negative body :
  (Py.code c =? 43) = false -> (Py.code c =? 45) = false ->
  ends_with c s -> Py.split_sign s = (negative, body) -> ends_with c body.
Proof.
  intros H43 H45 H. destruct s as [|a r]; [intros [= _ <-]; exact H|].
  cbn [Py.split_sign].
  destruct (Py.code a =? 43) eqn:E43.
  - intros [= _ <-].
    apply ends_with_cons in H as [[-> _] | H]; [congruence | exact H].
  - destruct (Py.code a =? 45) eqn:E45; intros [= _ <-]; [|exact H].
    apply ends_with_cons in H as [[-> _] | H]; [congruence | exact H].
Qed.

Lemma ends_with_digits_tail c (fuel : nat) :
  Py.digit_value c = None -> Py.is_underscore c = false ->
  forall s acc n rest,
    (String.length s <= fuel)%nat ->
    ends_with c s ->
    Py.digits_tail s acc = Some (n, rest) -> ends_with c rest.
Proof.
  intros Hd Hu. induction fuel as [|fuel IH]; intros s acc n rest Hlen Hend.
  - destruct s; [|cbn in Hlen; lia]. intros [= _ <-]. exact Hend.
  - destruct s as [|a r]; [intros [= _ <-]; exact Hend|].
    cbn [Py.digits_tail]. cbn [String.length] in Hlen.
    destruct (Py.digit_value a) as [d|] eqn:Ea.
    + apply ends_with_cons in Hend as [[-> _] | Hend]; [congruence|].
      apply IH; [lia | exact Hend].
    + destruct (Py.is_underscore a) eqn:Eu; [|intros [= _ <-]; exact Hend].
      apply ends_with_cons in Hend as [[-> _] | Hend]; [congruence|].
      destruct r as [|a2 r2]; [discriminate|].
      destruct (Py.digit_value a2) as [d|] eqn:Ea2; [|discriminate].
      apply ends_with_cons in Hend as [[-> _] | Hend]; [congruence|].
      cbn [String.length] in Hlen. apply IH; [lia | exact Hend].
Qed.

(** [int] reads no string that ends with such a character. *)
Lemma int_stops prefix c k :
  stops_int c = true -> Py.int (prefix ++ one c) <> Return k.
Proof.
  intros Hc. apply stops_int_spec in Hc as (Hs & Hd & Hu & H43 & H45).
  assert (Hend : ends_with c (prefix ++ one c)) by (exists prefix; reflexivity).
  apply (ends_with_lstrip c _ Hs) in Hend.
  unfold Py.int.
  destruct (Py.split_sign (Py.lstrip (prefix ++ one c))) as [negative body] eqn:E.
  pose proof (ends_with_split_sign c _ negative body H43 H45 Hend E) as Hbody.
  destruct body as [|a r]; [discriminate|].
  destruct (Py.digit_value a) as [d|] eqn:Ea; [|discriminate].
  apply ends_with_cons in Hbody as [[-> _] | Hr]; [congruence|].
  destruct (Py.digits_tail r d) as [[n rest]|] eqn:Et; [|discriminate].
  pose proof (ends_with_digits_tail c (String.length r) Hd Hu r d n rest
                (Nat.le_refl _) Hr Et) as Hrest.
  apply (ends_with_lstrip c _ Hs), ends_with_nonempty in Hrest.
  destruct (Py.lstrip rest); [congruence | discriminate].
Qed.

Lemma unit_stops_int c multiplier :
  unit_multiplier c = Some multiplier -> stops_int c = true.
Proof. each_char c; vm_compute; intros H; try discriminate H; reflexivity. Qed.

Lemma getitem_unit_inv c u :
  Py.getitem mapping (one (Py.lower_char c)) = Return u ->
  unit_multiplier c = Some u.
Proof.
  each_char c; vm_compute; intros H; try discriminate H;
    injection H as <-; reflexivity.
Qed.

Lemma string_last_split s :
  s = EmptyString \/ exists prefix c, s = prefix ++ one c.
Proof.
  induction s as [|a r IH]; [left; reflexivity|]. right.
  destruct IH as [-> | (q & c & ->)].
  - exists EmptyString, a. reflexivity.
  - exists (String a q), c. reflexivity.
Qed.

Lemma convert_suffix prefix c n multiplier :
  unit_multiplier c = Some multiplier ->
  Py.int prefix = Return n ->
  convert_human_memory_to_bytes (PyStr (prefix ++ one c))
  = Return (n * multiplier).
Proof.
  intros Hunit Hprefix. unfold convert_human_memory_to_bytes.
  destruct (Py.int (prefix ++ one c)) as [k|e] eqn:E.
  - exfalso. exact (int_stops prefix c k (unit_stops_int c multiplier Hunit) E).
  - apply int_raises in E. subst e.
    cbn [try_except Py.invalid_literal is_ValueError].
    rewrite last_lower_app. cbn [bind].
    rewrite but_last_app, Hprefix. cbn [bind].
    rewrite (getitem_unit c multiplier Hunit). reflexivity.
Qed.

(** A number and a unit are accepted whatever the number: a string made of
    a prefix that [int] reads and of one of k, K, m, M, g, G gives the
    number read times the unit; the case of the unit changes nothing. *)
Theorem convert_number_and_unit prefix c n multiplier :
  unit_multiplier c = Some multiplier ->
  Py.int prefix = Return n ->
  convert_human_memory_to_bytes (PyStr (prefix ++ one c))
  = Return (n * multiplier)
  /\ convert_human_memory_to_bytes (PyStr (prefix ++ one (Py.lower_char c)))
     = Return (n * multiplier).
Proof.
  intros Hunit Hprefix. split.
  - exact (convert_suffix prefix c n multiplier Hunit Hprefix).
  - apply convert_suffix; [|exact Hprefix].
    revert Hunit. each_char c; vm_compute; intros H; try discriminate H; exact H.
Qed.

Lemma convert_number_and_unit_witness :
  convert_human_memory_to_bytes (PyStr ("-3" ++ one "M"%char))
  = Return (-3 * 1024 ^ 2)
  /\ convert_human_memory_to_bytes
       (PyStr ("-3" ++ one (Py.lower_char "M"%char)))
     = Return (-3 * 1024 ^ 2).
Proof.
  apply (convert_number_and_unit "-3" "M"%char (-3) (1024 ^ 2)); reflexivity.
Defined.

(** A string is accepted exactly when it is a number [int] reads, or such a
    number followed by one unit character; every other string is refused. *)
Theorem convert_accepts_iff s n :
  convert_human_memory_to_bytes (PyStr s) = Return n <-> reads_as s n.
Proof.
  split.
  - intros H. unfold convert_human_memory_to_bytes in H.
    destruct (Py.int s) as [k|e0] eqn:E.
    + injection H as <-. left. exact E.
    + right. apply int_raises in E. subst e0.
      cbn [try_except Py.invalid_literal is_ValueError] in H.
      destruct (string_last_split s) as [-> | (q & c & ->)]; [discriminate H|].
      rewrite last_lower_app, but_last_app in H. cbn [bind] in H.
      destruct (Py.int q) as [k|e2] eqn:Ek;
        cbn [bind try_except is_Exception] in H; [|discriminate H].
      destruct (Py.getitem mapping (one (Py.lower_char c))) as [u|e3] eqn:Eu;
        cbn [bind try_except is_Exception] in H; [|discriminate H].
      injection H as <-.
      exists q, c, k, u. repeat split; [|exact Ek].
      exact (getitem_unit_inv c u Eu).
  - intros [H | (q & c & k & u & -> & Hunit & Hk & ->)].
    + unfold convert_human_memory_to_bytes. rewrite H. reflexivity.
    + exact (convert_suffix q c k u Hunit Hk).
Qed.

Lemma digits_tail_uint d :
  forall acc,
    Py.digits_tail (NilEmpty.string_of_uint d) acc
    = Some (uint_value d acc, EmptyString).
Proof.
  induction d as [|d IH|d IH|d IH|d IH|d IH|d IH|d IH|d IH|d IH|d IH];
    intros acc; [reflexivity | ..];
    cbn [NilEmpty.string_of_uint Py.digits_tail uint_value];
    match goal with
    | |- context [Py.digit_value ?c] =>
        change (Py.digit_value c) with (Some (Py.code c - 48))
    end;
    cbn [Py.code nat_of_ascii]; rewrite <- IH; reflexivity.
Qed.

Lemma uint_value_acc d :
  forall acc, Z.pos (Pos.of_uint_acc d acc) = uint_value d (Z.pos acc).
Proof.
  induction d as [|d IH|d IH|d IH|d IH|d IH|d IH|d IH|d IH|d IH|d IH];
    intros acc; [reflexivity | ..];
    cbn [Pos.of_uint_acc uint_value]; rewrite IH; f_equal; lia.
Qed.

Lemma uint_value_of_uint d : Z.of_uint d = uint_value d 0.
Proof.
  unfold Z.of_uint.
  induction d as [|d IH|d IH|d IH|d IH|d IH|d IH|d IH|d IH|d IH|d IH];
    [reflexivity | exact IH | ..];
    cbn [Pos.of_uint uint_value Z.of_N]; rewrite uint_value_acc; reflexivity.
Qed.

Lemma digit_is_plain c d :
  Py.digit_value c = Some d ->
  Py.isspace c = false
  /\ (Py.code c =? 43) = false /\ (Py.code c =? 45) = false.
Proof.
  unfold Py.digit_value, Py.isspace.
  destruct (Z.leb_spec 48 (Py.code c)), (Z.leb_spec (Py.code c) 57);
    cbn [andb]; intros [= _].
  repeat split.
  - repeat (apply orb_false_intro);
      [apply andb_false_intro2; apply Z.leb_gt; lia | apply Z.eqb_neq; lia
       | apply Z.eqb_neq; lia | apply Z.eqb_neq; lia].
  - apply Z.eqb_neq; lia.
  - apply Z.eqb_neq; lia.
Qed.

(** A first digit and the digits after it, with or without a minus sign. *)
Lemma int_digits c r d n :
  Py.digit_value c = Some d ->
  Py.digits_tail r d = Some (n, EmptyString) ->
  Py.int (String c r) = Return n
  /\ Py.int (String "-" (String c r)) = Return (- n).
Proof.
  intros Hd Ht. destruct (digit_is_plain c d Hd) as (Hs & H43 & H45).
  split; unfold Py.int; cbn [Py.lstrip].
  - rewrite Hs. cbn [Py.split_sign]. rewrite H43, H45, Hd, Ht. reflexivity.
  - change (Py.isspace "-") with false. cbn [Py.split_sign].
    change (Py.code "-" =? 43) with false.
    change (Py.code "-" =? 45) with true.
    cbn iota. rewrite Hd, Ht. reflexivity.
Qed.

Lemma int_string_of_uint d :
  Py.int (NilZero.string_of_uint d) = Return (uint_value d 0)
  /\ Py.int (String "-" (NilZero.string_of_uint d))
     = Return (- uint_value d 0).
Proof.
  destruct d as [|d|d|d|d|d|d|d|d|d|d]; [split; reflexivity | ..];
    cbn [NilZero.string_of_uint NilEmpty.string_of_uint uint_value];
    (eapply int_digits; [vm_compute; reflexivity | exact (digits_tail_uint d _)]).
Qed.

(** [int(str(n))] is [n]. *)
Lemma int_str_of_int n : Py.int (Py.str_of_int n) = Return n.
Proof.
  unfold Py.str_of_int, NilZero.string_of_int.
  pose proof (DecimalZ.of_to n) as E.
  destruct (Z.to_int n) as [d | d]; cbn [Z.of_int] in E;
    rewrite uint_value_of_uint in E;
    destruct (int_string_of_uint d) as [Hpos Hneg].
  - rewrite Hpos, E. reflexivity.
  - rewrite Hneg, E. reflexivity.
Qed.

(** The decimal form of any integer is read back as that integer, and,
    followed by a unit, as that integer times the unit. *)
Theorem convert_reads_back n c multiplier :
  unit_multiplier c = Some multiplier ->
  convert_human_memory_to_bytes (PyStr (Py.str_of_int n)) = Return n
  /\ convert_human_memory_to_bytes (PyStr (Py.str_of_int n ++ one c))
     = Return (n * multiplier).
Proof.
  intros Hunit. split.
  - unfold convert_human_memory_to_bytes. rewrite int_str_of_int. reflexivity.
  - exact (convert_suffix _ c n multiplier Hunit (int_str_of_int n)).
Qed.

Lemma convert_reads_back_witness :
  convert_human_memory_to_bytes (PyStr (Py.str_of_int 8589934592))
  = Return 8589934592
  /\ convert_human_memory_to_bytes
       (PyStr (Py.str_of_int 8589934592 ++ one "g"%char))
     = Return (8589934592 * 1024 ^ 3).
Proof.
  apply (convert_reads_back 8589934592 "g"%char (1024 ^ 3)). reflexivity.
Defined.

(** ** More on calculate_total_cells_in_array *)

Lemma total_cells_wrap seq :
  Forall int64_range seq ->
  calculate_total_cells_in_array seq
  = Return (Numpy.wrap_int64 (product seq)).
Proof.
  intros H. rewrite (total_cells_int64 seq H). destruct seq; reflexivity.
Qed.

Lemma wrap_int64_congruent z : (Numpy.wrap_int64 z - z) mod 2 ^ 64 = 0.
Proof.
  unfold Numpy.wrap_int64.
  pose proof (Z.div_mod (z + 2 ^ 63) (2 ^ 64) ltac:(lia)) as E.
  replace ((z + 2 ^ 63) mod 2 ^ 64 - 2 ^ 63 - z)
    with (- ((z + 2 ^ 63) / 2 ^ 64) * 2 ^ 64) by lia.
  apply Z_mod_mult.
Qed.

(** On extents that fit the signed 64-bit type the call always returns,
    and what it returns is the product of the extents brought into the
    signed 64-bit range modulo 2^64. *)
Theorem total_cells_modulo seq :
  Forall int64_range seq ->
  exists n,
    calculate_total_cells_in_array seq = Return n
    /\ int64_range n
    /\ (n - product seq) mod 2 ^ 64 = 0.
Proof.
  intros H. exists (Numpy.wrap_int64 (product seq)).
  split; [exact (total_cells_wrap seq H)|].
  split; [apply wrap_int64_range | apply wrap_int64_congruent].
Qed.

Lemma total_cells_modulo_witness :
  exists n,
    calculate_total_cells_in_array [2 ^ 31; 2 ^ 32; -3] = Return n
    /\ int64_range n
    /\ (n - product [2 ^ 31; 2 ^ 32; -3]) mod 2 ^ 64 = 0.
Proof.
  apply (total_cells_modulo [2 ^ 31; 2 ^ 32; -3]).
  repeat constructor; unfold int64_range; lia.
Defined.

Lemma product_permutation s1 s2 :
  Permutation s1 s2 -> product s1 = product s2.
Proof.
  unfold product. induction 1 as [|x l l' _ IH|x y l|l l' l'' _ IH1 _ IH2];
    simpl; [reflexivity | rewrite IH; reflexivity | ring | congruence].
Qed.

(** The order of the extents does not matter when they fit the signed
    64-bit type. *)
Theorem total_cells_permutation s1 s2 :
  Permutation s1 s2 ->
  Forall int64_range s1 ->
  calculate_total_cells_in_array s1 = calculate_total_cells_in_array s2.
Proof.
  intros Hperm H1.
  assert (H2 : Forall int64_range s2)
    by (exact (Permutation_Forall Hperm H1)).
  rewrite (total_cells_wrap s1 H1), (total_cells_wrap s2 H2).
  rewrite (product_permutation s1 s2 Hperm). reflexivity.
Qed.

Lemma total_cells_permutation_witness :
  calculate_total_cells_in_array [3; 5; 7]
  = calculate_total_cells_in_array [5; 3; 7].
Proof.
  apply (total_cells_permutation [3; 5; 7] [5; 3; 7]).
  - apply perm_swap.
  - repeat constructor; unfold int64_range; lia.
Defined.

Lemma wrap_int64_mul a b :
  Numpy.wrap_int64 (Numpy.wrap_int64 a * Numpy.wrap_int64 b)
  = Numpy.wrap_int64 (a * b).
Proof.
  rewrite wrap_int64_mul_l.
  rewrite (Z.mul_comm a (Numpy.wrap_int64 b)), wrap_int64_mul_l.
  f_equal. ring.
Qed.

(** The cells of two shapes put end to end are the cells of the one times
    the cells of the other, in 64-bit arithmetic. *)
Theorem total_cells_app s1 s2 c1 c2 :
  Forall int64_range s1 ->
  Forall int64_range s2 ->
  calculate_total_cells_in_array s1 = Return c1 ->
  calculate_total_cells_in_array s2 = Return c2 ->
  calculate_total_cells_in_array (s1 ++ s2)
  = Return (Numpy.wrap_int64 (c1 * c2)).
Proof.
  intros H1 H2 E1 E2.
  rewrite (total_cells_wrap s1 H1) in E1. injection E1 as <-.
  rewrite (total_cells_wrap s2 H2) in E2. injection E2 as <-.
  rewrite (total_cells_wrap (s1 ++ s2)) by (apply Forall_app; split; assumption).
  rewrite product_app, wrap_int64_mul. reflexivity.
Qed.

Lemma total_cells_app_witness :
  calculate_total_cells_in_array ([4; 5] ++ [6])
  = Return (Numpy.wrap_int64 (20 * 6)).
Proof.
  apply (total_cells_app [4; 5] [6] 20 6).
  - repeat constructor; unfold int64_range; lia.
  - repeat constructor; unfold int64_range; lia.
  - reflexivity.
  - reflexivity.
Defined.

Lemma discover_beyond x : beyond_64_bits x -> Numpy.discover x = Numpy.object_.
Proof.
  unfold beyond_64_bits, Numpy.discover. intros H.
  destruct (Z.leb_spec (- 2 ^ 63) x), (Z.ltb_spec x (2 ^ 63)),
    (Z.leb_spec 0 x), (Z.ltb_spec x (2 ^ 64)); cbn [andb]; try reflexivity; lia.
Qed.

Lemma promote_object_r d : Numpy.promote d Numpy.object_ = Numpy.object_.
Proof. destruct d; reflexivity. Qed.

Lemma fold_promote_object xs :
  fold_left (fun d y => Numpy.promote d (Numpy.discover y)) xs Numpy.object_
  = Numpy.object_.
Proof. induction xs as [|x xs IH]; [reflexivity | exact IH]. Qed.

Lemma fold_promote_beyond xs :
  Exists beyond_64_bits xs ->
  forall d,
    fold_left (fun d y => Numpy.promote d (Numpy.discover y)) xs d
    = Numpy.object_.
Proof.
  induction 1 as [x xs Hx | x xs _ IH]; intros d; cbn [fold_left].
  - rewrite (discover_beyond x Hx), promote_object_r. apply fold_promote_object.
  - apply IH.
Qed.

Lemma array_dtype_object seq :
  Exists beyond_64_bits seq -> Numpy.array_dtype seq = Numpy.object_.
Proof.
  intros H. destruct seq as [|x xs]; [inversion H|].
  cbn [Numpy.array_dtype]. inversion H as [? ? Hx | ? ? Hxs]; subst.
  - rewrite (discover_beyond x Hx). apply fold_promote_object.
  - apply fold_promote_beyond. exact Hxs.
Qed.

Lemma fold_left_mul l : forall a, fold_left Z.mul l a = a * product l.
Proof.
  unfold product. induction l as [|x l IH]; intros a; simpl.
  - ring.
  - rewrite IH. ring.
Qed.

(** A sequence with an element that no 64-bit type holds is multiplied as
    Python integers: the call returns the product itself. *)
Theorem total_cells_big_integers seq :
  Exists beyond_64_bits seq ->
  calculate_total_cells_in_array seq = Return (product seq).
Proof.
  intros H. unfold calculate_total_cells_in_array, Numpy.array.
  rewrite (array_dtype_object seq H). cbn [Numpy.prod Numpy.to_int].
  rewrite fold_left_mul. f_equal. ring.
Qed.

Lemma total_cells_big_integers_witness :
  calculate_total_cells_in_array [2 ^ 64; 2 ^ 32; 3]
  = Return (product [2 ^ 64; 2 ^ 32; 3]).
Proof.
  apply (total_cells_big_integers [2 ^ 64; 2 ^ 32; 3]).
  left. right. lia.
Defined.

Lemma wrap_uint64_mul_l a b :
  Numpy.wrap_uint64 (Numpy.wrap_uint64 a * b) = Numpy.wrap_uint64 (a * b).
Proof. unfold Numpy.wrap_uint64. apply Z.mul_mod_idemp_l. lia. Qed.

Lemma reduce_uint64 l :
  forall acc,
    fold_left (fun a x => Numpy.wrap_uint64 (a * x)) l (Numpy.wrap_uint64 acc)
    = Numpy.wrap_uint64 (acc * product l).
Proof.
  induction l as [|x l IH]; intros acc; simpl.
  - unfold product; simpl. rewrite Z.mul_1_r. reflexivity.
  - rewrite wrap_uint64_mul_l, IH. unfold product; simpl. f_equal. ring.
Qed.

Lemma fmul_zero_or_nan_l a b : zero_or_nan a -> zero_or_nan (Numpy.fmul a b).
Proof.
  intros [-> | ->]; [|right; reflexivity].
  destruct b as [w | sign |]; [left; reflexivity | right; reflexivity
                               | right; reflexivity].
Qed.

Lemma fmul_zero_r a : zero_or_nan (Numpy.fmul a (Numpy.to_double 0)).
Proof.
  change (Numpy.to_double 0) with (Numpy.Finite 0).
  destruct a as [z | sign |]; [left | right; reflexivity | right; reflexivity].
  cbn [Numpy.fmul]. rewrite Z.mul_0_r. reflexivity.
Qed.

Lemma fold_fmul_zero_or_nan l :
  forall a, zero_or_nan a -> zero_or_nan (fold_left Numpy.fmul l a).
Proof.
  induction l as [|b l IH]; intros a Ha; [exact Ha|].
  cbn [fold_left]. apply IH, fmul_zero_or_nan_l, Ha.
Qed.

Lemma fold_fmul_with_zero seq :
  In 0 seq ->
  forall a,
    zero_or_nan (fold_left Numpy.fmul (map Numpy.to_double seq) a).
Proof.
  induction seq as [|x seq IH]; [intros []|].
  intros [-> | H] a; cbn [map fold_left].
  - apply fold_fmul_zero_or_nan, fmul_zero_r.
  - apply IH, H.
Qed.

Lemma total_cells_with_zero seq :
  In 0 seq ->
  calculate_total_cells_in_array seq = Return 0
  \/ calculate_total_cells_in_array seq = Raise not_a_number.
Proof.
  intros Hzero. pose proof (product_zero seq Hzero) as Hprod.
  unfold calculate_total_cells_in_array, Numpy.array.
  destruct (Numpy.array_dtype seq); cbn [Numpy.prod Numpy.to_int].
  - left. change 1 with (Numpy.wrap_int64 1) at 1.
    rewrite reduce_int64, Hprod. reflexivity.
  - left. change 1 with (Numpy.wrap_uint64 1) at 1.
    rewrite reduce_uint64, Hprod. reflexivity.
  - destruct (fold_fmul_with_zero seq Hzero (Numpy.Finite 1)) as [-> | ->];
      [left | right]; reflexivity.
  - left. rewrite fold_left_mul, Hprod. reflexivity.
Qed.

(** Whatever the other extents, a shape with a zero extent never counts as
    anything but 0 cells: the call returns 0, or raises the ValueError of a
    float64 product that is not a number. *)
Theorem total_cells_zero_extent seq :
  In 0 seq ->
  calculate_total_cells_in_array seq = Return 0
  \/ calculate_total_cells_in_array seq = Raise not_a_number.
Proof. exact (total_cells_with_zero seq). Qed.

Lemma total_cells_zero_extent_witness :
  calculate_total_cells_in_array [2 ^ 63; 0; 7] = Return 0
  \/ calculate_total_cells_in_array [2 ^ 63; 0; 7] = Raise not_a_number.
Proof.
  apply (total_cells_zero_extent [2 ^ 63; 0; 7]).
  right. left. reflexivity.
Defined.

(** ** More on check_memory *)

Section MoreGuardProperties.

Variable convert_size_to_human : Z -> result string.

(** Where the formatter renders both effective limits, a larger configured
    limit or more memory left never turns a pass into a refusal, and a
    smaller limit or less memory never turns a DekerMemoryError into a
    pass. *)
Theorem check_memory_monotone os os' shape dtype limit limit'
    limit_human limit_human' :
  limit <= limit' ->
  virtual_memory_available os + swap_memory_free os
    <= virtual_memory_available os' + swap_memory_free os' ->
  convert_size_to_human (effective_limit os limit) = Return limit_human ->
  convert_size_to_human (effective_limit os' limit') = Return limit_human' ->
  (check_memory convert_size_to_human os shape dtype limit = Return tt ->
     check_memory convert_size_to_human os' shape dtype limit' = Return tt)
  /\ (raises_memory_error
        (check_memory convert_size_to_human os' shape dtype limit') ->
      raises_memory_error
        (check_memory convert_size_to_human os shape dtype limit)).
Proof.
  intros Hlimit Hmem Hlow Hhigh. unfold check_memory, effective_limit in *.
  destruct (calculate_total_cells_in_array shape) as [cells | e]; cbn [bind];
    [|split; intros H; [discriminate H | exact H]].
  destruct (convert_size_to_human (itemsize dtype * cells)) as [size_human | e];
    cbn [bind]; [|split; intros H; [discriminate H | exact H]].
  rewrite Hlow, Hhigh. cbn [bind].
  destruct (Z.gtb_spec (itemsize dtype * cells)
              (Z.min limit (virtual_memory_available os + swap_memory_free os)))
    as [Hgt | Hle];
  destruct (Z.gtb_spec (itemsize dtype * cells)
              (Z.min limit' (virtual_memory_available os' + swap_memory_free os')))
    as [Hgt' | Hle'];
  split; intros H; try discriminate H; try reflexivity; try lia;
    try (eexists; reflexivity).
  destruct H as [msg H]. discriminate H.
Qed.

(** On a shape whose extents fit the signed 64-bit type the guard works on
    the item size times the wrapped cell count.  What the formatter raises
    on that size the guard raises; where the formatter renders that size
    and the effective limit, the guard returns when the size is within the
    limit and raises DekerMemoryError when it is above, and does nothing
    else. *)
Theorem check_memory_outcomes os shape dtype limit :
  Forall int64_range shape ->
  (forall e,
     convert_size_to_human
       (itemsize dtype * Numpy.wrap_int64 (product shape)) = Raise e ->
     check_memory convert_size_to_human os shape dtype limit = Raise e)
  /\ (forall size_human limit_human,
        convert_size_to_human
          (itemsize dtype * Numpy.wrap_int64 (product shape))
        = Return size_human ->
        convert_size_to_human (effective_limit os limit) = Return limit_human ->
        (check_memory convert_size_to_human os shape dtype limit = Return tt
           <-> itemsize dtype * Numpy.wrap_int64 (product shape)
               <= effective_limit os limit)
        /\ (raises_memory_error
              (check_memory convert_size_to_human os shape dtype limit)
            <-> itemsize dtype * Numpy.wrap_int64 (product shape)
                > effective_limit os limit)).
Proof.
  intros Hext. pose proof (total_cells_wrap shape Hext) as Ecells. split.
  - intros e He.
    exact (check_memory_size_error convert_size_to_human os shape dtype limit
             _ e Ecells He).
  - intros size_human limit_human Hsize Hlimit.
    destruct (check_memory_decides convert_size_to_human os shape dtype limit
                _ size_human limit_human Ecells Hsize Hlimit)
      as [Hraise Hpass].
    split; split; intros H.
    + destruct (Z_le_gt_dec (itemsize dtype * Numpy.wrap_int64 (product shape))
                  (effective_limit os limit)) as [Hle | Hgt]; [exact Hle|].
      destruct (Hraise Hgt) as [msg E]. rewrite E in H. discriminate H.
    + exact (Hpass H).
    + destruct (Z_le_gt_dec (itemsize dtype * Numpy.wrap_int64 (product shape))
                  (effective_limit os limit)) as [Hle | Hgt]; [|exact Hgt].
      destruct H as [msg E]. rewrite (Hpass Hle) in E. discriminate E.
    + exact (Hraise H).
Qed.

(** The guard raises no DekerMemoryError for a shape with a zero extent
    when the effective limit is not negative and the formatter renders it
    and the size 0: it returns, unless the count of the cells itself fails
    on a float64 product that is not a number. *)
Theorem check_memory_zero_extent os shape dtype limit size_human limit_human :
  In 0 shape ->
  0 <= effective_limit os limit ->
  convert_size_to_human 0 = Return size_human ->
  convert_size_to_human (effective_limit os limit) = Return limit_human ->
  check_memory convert_size_to_human os shape dtype limit = Return tt
  \/ check_memory convert_size_to_human os shape dtype limit
     = Raise not_a_number.
Proof.
  intros Hzero Hlimit Hsize Hrender.
  destruct (total_cells_with_zero shape Hzero) as [E | E].
  - left.
    apply (check_memory_decides convert_size_to_human os shape dtype limit 0
             size_human limit_human E).
    + rewrite Z.mul_0_r. exact Hsize.
    + exact Hrender.
    + lia.
  - right. unfold check_memory. rewrite E. reflexivity.
Qed.

End MoreGuardProperties.

Lemma check_memory_monotone_witness :
  (check_memory bytes_formatter plenty [1000; 1000] float64_type 9000000
   = Return tt ->
   check_memory bytes_formatter plenty [1000; 1000] float64_type 10000000
   = Return tt)
  /\ (raises_memory_error
        (check_memory bytes_formatter plenty [1000; 1000] float64_type 10000000) ->
      raises_memory_error
        (check_memory bytes_formatter plenty [1000; 1000] float64_type 9000000)).
Proof.
  apply (check_memory_monotone bytes_formatter plenty plenty [1000; 1000]
           float64_type 9000000 10000000 "9000000 B" "10000000 B");
    [lia | lia | vm_compute; reflexivity | vm_compute; reflexivity].
Defined.

Lemma check_memory_outcomes_witness :
  check_memory bytes_formatter plenty [2 ^ 31; 2 ^ 32] float64_type 7000000
  = Raise (ValueError "math domain error")
  /\ (check_memory bytes_formatter plenty [2 ^ 31; 3] float64_type 7000000
      = Return tt
      <-> itemsize float64_type * Numpy.wrap_int64 (product [2 ^ 31; 3])
          <= effective_limit plenty 7000000).
Proof.
  split.
  - destruct (check_memory_outcomes bytes_formatter plenty [2 ^ 31; 2 ^ 32]
                float64_type 7000000) as [Hraise _].
    + repeat constructor; unfold int64_range; lia.
    + apply Hraise. vm_compute. reflexivity.
  - destruct (check_memory_outcomes bytes_formatter plenty [2 ^ 31; 3]
                float64_type 7000000) as [_ Hdecide].
    + repeat constructor; unfold int64_range; lia.
    + destruct (Hdecide "51539607552 B" "7000000 B") as [Hpass _];
        [vm_compute; reflexivity | vm_compute; reflexivity | exact Hpass].
Defined.

Lemma check_memory_zero_extent_witness :
  check_memory bytes_formatter plenty [2 ^ 63; 0] float64_type 0 = Return tt
  \/ check_memory bytes_formatter plenty [2 ^ 63; 0] float64_type 0
     = Raise not_a_number.
Proof.
  apply (check_memory_zero_extent bytes_formatter plenty [2 ^ 63; 0]
           float64_type 0 "0 B" "0 B").
  - right. left. reflexivity.
  - vm_compute. discriminate.
  - vm_compute; reflexivity.
  - vm_compute; reflexivity.
Defined.

(** ** More on generate_uid and get_id *)

Lemma hex_char_is_hex d :
  0 <= d < 16 -> is_lower_hex (Uuid.hex_char d) = true.
Proof.
  intros H.
  assert (d = 0 \/ d = 1 \/ d = 2 \/ d = 3 \/ d = 4 \/ d = 5 \/ d = 6 \/ d = 7
          \/ d = 8 \/ d = 9 \/ d = 10 \/ d = 11 \/ d = 12 \/ d = 13 \/ d = 14
          \/ d = 15) as E by lia.
  repeat (destruct E as [-> | E]; [reflexivity|]). subst d. reflexivity.
Qed.

Lemma hex_all_hex n x : all_chars is_lower_hex (Uuid.hex n x) = true.
Proof.
  induction n as [|n IH]; [reflexivity|].
  cbn [Uuid.hex all_chars]. rewrite IH, andb_true_r.
  apply hex_char_is_hex. apply Z.mod_pos_bound. lia.
Qed.

Lemma hex_first n x :
  Uuid.hex (S n) x
  = String (Uuid.hex_char (Z.shiftr x (4 * Z.of_nat n) mod 16)) (Uuid.hex n x).
Proof. reflexivity. Qed.

(** The digit that opens the third group is the version. *)
Lemma version_digit u :
  Z.shiftr (Z.shiftr u 64) (4 * Z.of_nat 3) mod 16 = Uuid.version u.
Proof.
  unfold Uuid.version. change (4 * Z.of_nat 3) with 12.
  rewrite Z.shiftr_shiftr by lia. change (64 + 12) with 76.
  change 0xf with (Z.ones 4). rewrite Z.land_ones by lia. reflexivity.
Qed.

(** Whatever the bytes, [UUID(bytes=b, version=5)] has the RFC 4122
    variant: its bits 63 and 62 are 1 and 0. *)
Lemma variant_of_bytes b :
  Z.land (Z.shiftr (Uuid.of_bytes b 5) 62) 3 = 2.
Proof.
  unfold Uuid.of_bytes.
  apply Z.bits_inj'. intros n Hn.
  rewrite Z.land_spec, Z.shiftr_spec, Z.lor_spec, Z.land_spec, Z.lor_spec,
    Z.land_spec by lia.
  destruct (Z.ltb_spec n 2) as [Hlt | Hge].
  - assert (n = 0 \/ n = 1) as [-> | ->] by lia.
    + change (Z.testbit (Z.lnot (Z.shiftl 0xc000 48)) (0 + 62)) with false.
      rewrite andb_false_r. reflexivity.
    + change (Z.testbit (Z.shiftl 0x8000 48) (1 + 62)) with true.
      rewrite orb_true_r. reflexivity.
  - change 3 with (Z.ones 2). rewrite Z.ones_spec_high by lia.
    rewrite andb_false_r. symmetry. apply Z.bits_above_log2; [lia|].
    change (Z.log2 2) with 1. lia.
Qed.

Lemma variant_digit b :
  is_variant_digit
    (Uuid.hex_char
       (Z.shiftr (Z.shiftr (Uuid.of_bytes b 5) 48) (4 * Z.of_nat 3) mod 16)).
Proof.
  pose proof (variant_of_bytes b) as H.
  change (4 * Z.of_nat 3) with 12.
  rewrite Z.shiftr_shiftr by lia. change (48 + 12) with 60.
  set (u := Uuid.of_bytes b 5) in *.
  change 3 with (Z.ones 2) in H. rewrite Z.land_ones in H by lia.
  rewrite !Z.shiftr_div_pow2 in * by lia.
  assert (E : u / 2 ^ 62 = u / 2 ^ 60 / 4)
    by (rewrite Z.div_div by lia; reflexivity).
  rewrite E in H. set (w := u / 2 ^ 60) in *.
  assert (w mod 16 = 8 \/ w mod 16 = 9 \/ w mod 16 = 10 \/ w mod 16 = 11)
    as [-> | [-> | [-> | ->]]].
  { change (2 ^ 2) with 4 in H.
    pose proof (Z.div_mod w 4 ltac:(lia)).
    pose proof (Z.mod_pos_bound w 4 ltac:(lia)).
    pose proof (Z.div_mod (w / 4) 4 ltac:(lia)).
    pose proof (Z.div_mod w 16 ltac:(lia)).
    pose proof (Z.mod_pos_bound w 16 ltac:(lia)).
    lia. }
  all: unfold is_variant_digit; auto.
Qed.

Lemma variant_digit_uuid5 namespace name :
  is_variant_digit
    (Uuid.hex_char
       (Z.shiftr (Z.shiftr (Uuid.uuid5 namespace name) 48) (4 * Z.of_nat 3)
        mod 16)).
Proof. unfold Uuid.uuid5. apply variant_digit. Qed.

Section MoreIdentityProperties.

Variable value : ArrayType.t -> string.
Variable datetime : Type.
Variable isoformat : datetime -> string.

(** For either kind and at any instant the identifier has the canonical
    form of a version-5 UUID: five groups of 8, 4, 4, 4 and 12 lowercase
    hexadecimal digits separated by hyphens, the third group opening with
    5 and the fourth with 8, 9, a or b. *)
Theorem generate_uid_canonical (now : datetime) (m : ArrayType.t) :
  exists g1 g2 g3 g4 g5 v,
    generate_uid value datetime isoformat now (Member m)
    = Return (g1 ++ "-" ++ g2 ++ "-" ++ String "5" g3 ++ "-"
              ++ String v g4 ++ "-" ++ g5)
    /\ String.length g1 = 8%nat /\ String.length g2 = 4%nat
    /\ String.length g3 = 3%nat /\ String.length g4 = 3%nat
    /\ String.length g5 = 12%nat
    /\ all_chars is_lower_hex (g1 ++ g2 ++ g3 ++ g4 ++ g5) = true
    /\ is_variant_digit v.
Proof.
  cbn [generate_uid]. unfold Uuid.str.
  rewrite (hex_first 3 (Z.shiftr _ 64)), (hex_first 3 (Z.shiftr _ 48)).
  rewrite version_digit, version_uuid5.
  change (Uuid.hex_char 5) with "5"%char.
  do 6 eexists. split; [reflexivity|].
  rewrite !length_hex. repeat (split; [reflexivity|]).
  split.
  - assert (Happ : forall a b, all_chars is_lower_hex a = true ->
                     all_chars is_lower_hex b = true ->
                     all_chars is_lower_hex (a ++ b) = true).
    { intros a b Ha Hb. induction a as [|c a IH]; [exact Hb|].
      cbn [append all_chars] in *. apply andb_true_iff in Ha as [Hc Ha].
      rewrite Hc, (IH Ha). reflexivity. }
    repeat apply Happ; apply hex_all_hex.
  - apply variant_digit_uuid5.
Qed.

End MoreIdentityProperties.
